(** * tbot: a reminder bot (src/main.py)

    A shallow embedding of the time resolver ([process_time]), the
    per-reminder scheduling loop ([schedule_reminder]), the dispatcher
    ([send_reminder], [get_weather]), the listing query ([show_reminders]),
    the delete handler ([delete_reminder]) and start-up recovery ([main]).

    Conventions of the embedding:
    - Python [str] values are [string]s holding the UTF-8 bytes of the text;
    - a naive [datetime] is a record of its seven integer fields;
    - Python exceptions are the [Raise] case of [result];
    - the chat gateway, the weather service, the date parser and the wall
      clock are inputs of the functions that use them. *)

From Stdlib Require Import ZArith List String Ascii Bool Lia.
From Stdlib Require Import Permutation Sorted.
From Stdlib Require DecimalString DecimalZ DecimalPos DecimalFacts.
Import ListNotations.

Local Open Scope string_scope.
Local Open Scope list_scope.
Local Open Scope Z_scope.

(** ** Python strings *)

Module PyStr.

Definition nl : string := String (ascii_of_nat 10) EmptyString.

(** [bool(s)] for a [str]: only the empty string is falsy. *)
Definition nonempty (s : string) : bool :=
  match s with
  | EmptyString => false
  | String _ _ => true
  end.

Fixpoint startswith (p s : string) : bool :=
  match p, s with
  | EmptyString, _ => true
  | String a p', String b s' => Ascii.eqb a b && startswith p' s'
  | String _ _, EmptyString => false
  end.

(** [p in s] *)
Fixpoint contains (p s : string) : bool :=
  startswith p s ||
  match s with
  | EmptyString => false
  | String _ s' => contains p s'
  end.

(** [s.replace(old, new)] for a non-empty [old]: occurrences are replaced
    from left to right and do not overlap.  [skip] counts the bytes of an
    occurrence that are still to be dropped. *)
Fixpoint replace_from (old new : string) (skip : nat) (s : string) : string :=
  match s with
  | EmptyString => EmptyString
  | String c s' =>
      match skip with
      | S k => replace_from old new k s'
      | O =>
          if startswith old s
          then (new ++ replace_from old new (String.length old - 1) s')%string
          else String c (replace_from old new O s')
      end
  end.

Definition replace (s old new : string) : string := replace_from old new O s.

(** ASCII white space, as removed by [str.strip()].  White space outside
    ASCII is not covered. *)
Definition is_space (c : ascii) : bool :=
  let n := nat_of_ascii c in
  (Nat.eqb n 32 || (Nat.leb 9 n && Nat.leb n 13) || (Nat.leb 28 n && Nat.leb n 31))%bool.

Fixpoint lstrip (s : string) : string :=
  match s with
  | String c s' => if is_space c then lstrip s' else s
  | EmptyString => EmptyString
  end.

Fixpoint rstrip (s : string) : string :=
  match s with
  | EmptyString => EmptyString
  | String c s' =>
      match rstrip s' with
      | EmptyString => if is_space c then EmptyString else String c EmptyString
      | t => String c t
      end
  end.

Definition strip (s : string) : string := rstrip (lstrip s).

(** [s.lower()] on UTF-8 text, for the Latin letters A-Z and the Cyrillic
    capitals U+0400-U+042F (two bytes, the first one D0); every other byte
    is kept. *)
Definition between (lo n hi : nat) : bool := (Nat.leb lo n && Nat.leb n hi)%bool.

Definition byte (n : nat) (s : string) : string := String (ascii_of_nat n) s.

Fixpoint lower (s : string) : string :=
  match s with
  | EmptyString => EmptyString
  | String c t =>
      let n := nat_of_ascii c in
      if Nat.eqb n 208 then
        match t with
        | String c2 t' =>
            let m := nat_of_ascii c2 in
            if between 128 m 143 then byte 209 (byte (m + 16) (lower t'))
            else if between 144 m 159 then byte 208 (byte (m + 32) (lower t'))
            else if between 160 m 175 then byte 209 (byte (m - 32) (lower t'))
            else String c (lower t)
        | EmptyString => String c EmptyString
        end
      else if between 65 n 90 then byte (n + 32) (lower t)
      else String c (lower t)
  end.

End PyStr.

(** ** Exceptions *)

Inductive exn : Type :=
| ValueError      (* a date field out of range *)
| OverflowError.  (* a date beyond [MAXYEAR] *)

Inductive result (A : Type) : Type :=
| Ok (a : A)
| Raise (e : exn).

Arguments Ok {A} a.
Arguments Raise {A} e.

Definition bind {A B : Type} (r : result A) (k : A -> result B) : result B :=
  match r with
  | Ok a => k a
  | Raise e => Raise e
  end.

Notation "x <- r ;; k" := (bind r (fun x => k))
  (at level 61, r at next level, right associativity).

(** ** Naive datetimes (the [datetime] module of the Python library) *)

Module Datetime.

Record datetime : Type := mk {
  year : Z; month : Z; day : Z;
  hour : Z; minute : Z; second : Z; microsecond : Z
}.

Definition MINYEAR : Z := 1.
Definition MAXYEAR : Z := 9999.

Definition is_leap (y : Z) : bool :=
  (y mod 4 =? 0) && (negb (y mod 100 =? 0) || (y mod 400 =? 0)).

Definition DAYS_IN_MONTH (m : Z) : Z :=
  match m with
  | 1 => 31 | 2 => 28 | 3 => 31 | 4 => 30 | 5 => 31 | 6 => 30
  | 7 => 31 | 8 => 31 | 9 => 30 | 10 => 31 | 11 => 30 | 12 => 31
  | _ => -1
  end.

Definition DAYS_BEFORE_MONTH (m : Z) : Z :=
  match m with
  | 1 => 0 | 2 => 31 | 3 => 59 | 4 => 90 | 5 => 120 | 6 => 151
  | 7 => 181 | 8 => 212 | 9 => 243 | 10 => 273 | 11 => 304 | 12 => 334
  | _ => -1
  end.

Definition days_in_month (y m : Z) : Z :=
  if (m =? 2) && is_leap y then 29 else DAYS_IN_MONTH m.

Definition days_before_year (y : Z) : Z :=
  let p := y - 1 in p * 365 + p / 4 - p / 100 + p / 400.

Definition days_before_month (y m : Z) : Z :=
  DAYS_BEFORE_MONTH m + (if (2 <? m) && is_leap y then 1 else 0).

Definition ymd2ord (y m d : Z) : Z :=
  days_before_year y + days_before_month y m + d.

Definition toordinal (t : datetime) : Z := ymd2ord (year t) (month t) (day t).

(** The date check of the [datetime] constructor. *)
Definition check_date_fields (y m d : Z) : result unit :=
  if negb ((MINYEAR <=? y) && (y <=? MAXYEAR)) then Raise ValueError
  else if negb ((1 <=? m) && (m <=? 12)) then Raise ValueError
  else if negb ((1 <=? d) && (d <=? days_in_month y m)) then Raise ValueError
  else Ok tt.

Definition valid_time (t : datetime) : bool :=
  (0 <=? hour t) && (hour t <? 24) && (0 <=? minute t) && (minute t <? 60) &&
  (0 <=? second t) && (second t <? 60) &&
  (0 <=? microsecond t) && (microsecond t <? 1000000).

Definition valid_date (t : datetime) : bool :=
  (MINYEAR <=? year t) && (year t <=? MAXYEAR) &&
  (1 <=? month t) && (month t <=? 12) &&
  (1 <=? day t) && (day t <=? days_in_month (year t) (month t)).

Definition valid (t : datetime) : bool := valid_date t && valid_time t.

(** [t.replace(year=y, month=m)]: a new datetime is built from the fields,
    and the constructor checks them. *)
Definition replace (t : datetime) (y m : Z) : result datetime :=
  _ <- check_date_fields y m (day t) ;;
  Ok (mk y m (day t) (hour t) (minute t) (second t) (microsecond t)).

(** [t + timedelta(days=1)]: the next calendar day at the same time of
    day. *)
Definition add_day (t : datetime) : result datetime :=
  let at_date y m d := mk y m d (hour t) (minute t) (second t) (microsecond t) in
  if day t <? days_in_month (year t) (month t) then Ok (at_date (year t) (month t) (day t + 1))
  else if month t <? 12 then Ok (at_date (year t) (month t + 1) 1)
  else if year t <? MAXYEAR then Ok (at_date (year t + 1) 1 1)
  else Raise OverflowError.

(** Comparison is the comparison of the field tuples. *)
Definition fields (t : datetime) : list Z :=
  [year t; month t; day t; hour t; minute t; second t; microsecond t].

Fixpoint lex (a b : list Z) : comparison :=
  match a, b with
  | [], [] => Eq
  | [], _ :: _ => Lt
  | _ :: _, [] => Gt
  | x :: a', y :: b' =>
      match x ?= y with
      | Eq => lex a' b'
      | c => c
      end
  end.

Definition cmp (a b : datetime) : comparison := lex (fields a) (fields b).

Definition ltb (a b : datetime) : bool :=
  match cmp a b with Lt => true | _ => false end.

Definition leb (a b : datetime) : bool :=
  match cmp a b with Gt => false | _ => true end.

(** [(a - b)] as a whole number of microseconds; [total_seconds()] is this
    number divided by 10^6, so both have the same sign. *)
Definition seconds_of_day (t : datetime) : Z :=
  second t + minute t * 60 + hour t * 3600.

Definition sub_us (a b : datetime) : Z :=
  ((toordinal a - toordinal b) * 86400 + (seconds_of_day a - seconds_of_day b)) * 1000000
  + (microsecond a - microsecond b).

End Datetime.

(** ** Python values and truthiness *)

Inductive pyval : Type :=
| PyStr (s : string)
| PyBool (b : bool).

Definition truthy (v : pyval) : bool :=
  match v with
  | PyStr s => PyStr.nonempty s
  | PyBool b => b
  end.

(** [a or b] is [a] when [a] is truthy and [b] otherwise. *)
Definition py_or (a b : pyval) : pyval := if truthy a then a else b.

(** Truthiness of an [Optional[str]]: [None] and the empty string are falsy. *)
Definition truthy_opt (o : option string) : bool :=
  match o with
  | Some s => PyStr.nonempty s
  | None => false
  end.

(** [o == s] for an [Optional[str]] and a literal. *)
Definition is_str (o : option string) (s : string) : bool :=
  match o with
  | Some t => String.eqb t s
  | None => false
  end.

Definition is_not_none (o : option string) : bool :=
  match o with
  | Some _ => true
  | None => false
  end.

(** [f"{o}"] *)
Definition fmt (o : option string) : string :=
  match o with
  | Some s => s
  | None => "None"
  end.

(** ** The reminder entity (class [Reminder], table [reminders]) *)

Record Reminder : Type := mkReminder {
  id : Z;
  user_id : Z;
  name : string;
  time : Datetime.datetime;
  repeat_interval : option string;
  is_weather : bool;
  city : option string;
  file_id : option string;
  file_type : option string;
  next_run : Datetime.datetime
}.

Definition set_next_run (r : Reminder) (t : Datetime.datetime) : Reminder :=
  mkReminder (id r) (user_id r) (name r) (time r) (repeat_interval r)
             (is_weather r) (city r) (file_id r) (file_type r) t.

(** ** The outside world *)

(** Calls on the chat gateway ([bot.send_...]). *)
Inductive gateway_call : Type :=
| send_message (chat_id : Z) (text : string)
| send_photo (chat_id : Z) (photo : string) (caption : string)
| send_document (chat_id : Z) (document : string) (caption : string)
| send_audio (chat_id : Z) (audio : string) (caption : string).

(** What a task does that can be seen from outside. *)
Inductive event : Type :=
| Sleep (microseconds : Z)      (* [asyncio.sleep(delay)] *)
| Call (c : gateway_call)
| Print (line : string).

(** The JSON answer of the weather service.  [cod] is a number on success
    and a string otherwise; a key that is absent is [None].  The numbers of
    [conditions] are held as Python prints them, the description as
    [capitalize()] returns it.  [inl msg] for the body stands for an answer
    in which reading one of these fields raises an exception [e] with
    [str(e) = msg]. *)
Inductive cod_value : Type :=
| CodInt (n : Z)
| CodStr (s : string).

Record conditions : Type := mkConditions {
  temp : string;
  feels_like : string;
  description : string;
  wind_speed : string
}.

Record weather_json : Type := mkJson {
  cod : option cod_value;
  message : option string;
  body : string + conditions
}.

(** [requests.get(url)] followed by [response.json()]: either of them
    raises an exception [e] with [str(e) = msg], or the JSON is there. *)
Inductive lookup : Type :=
| LookupRaised (msg : string)
| LookupJson (data : weather_json).

Definition cod_is_200 (c : cod_value) : bool :=
  match c with
  | CodInt n => n =? 200
  | CodStr _ => false
  end.

(** The lookup failed: an exception, or a status other than 200. *)
Definition lookup_failed (l : lookup) : bool :=
  match l with
  | LookupRaised _ => true
  | LookupJson data =>
      match cod data with
      | Some c => negb (cod_is_200 c)
      | None => true
      end
  end.

Definition cat (l : list string) : string := String.concat EmptyString l.

(** ** The bot *)

Section Bot.

(** [gateway c] is [Some msg] when the call [c] raises an exception [e]
    with [str(e) = msg], and [None] when it succeeds. *)
Variable gateway : gateway_call -> option string.

(** The weather service, by the city put into the URL. *)
Variable weather : string -> lookup.

(** [dateparser.parse(text, languages=['ru'], settings=...)], by the text
    and the [RELATIVE_BASE] setting. *)
Variable dateparser_parse : string -> Datetime.datetime -> option Datetime.datetime.

(** *** [get_weather] (lines 58-76) *)

Definition get_weather (city : string) : string :=
  match weather city with
  | LookupRaised msg => cat ["Ошибка получения погоды: "; msg]
  | LookupJson data =>
      match cod data with
      | None => "Ошибка получения погоды: 'cod'"
      | Some c =>
          if negb (cod_is_200 c) then
            match message data with
            | Some m => cat ["Ошибка: "; m]
            | None => "Ошибка получения погоды: 'message'"
            end
          else
            match body data with
            | inl msg => cat ["Ошибка получения погоды: "; msg]
            | inr w =>
                cat ["Погода в "; city; ":"; PyStr.nl;
                     "Температура: "; temp w; "°C"; PyStr.nl;
                     "Ощущается как: "; feels_like w; "°C"; PyStr.nl;
                     description w; PyStr.nl;
                     "Ветер: "; wind_speed w; " м/с"]
            end
      end
  end.

(** *** [send_reminder] (lines 476-495) *)

(** A gateway call inside the [try]: an exception is printed and
    swallowed. *)
Definition attempt (c : gateway_call) : list event :=
  Call c ::
  match gateway c with
  | Some msg => [Print (cat ["Ошибка отправки: "; msg])]
  | None => []
  end.

Definition send_reminder (r : Reminder) : list event :=
  if is_weather r then
    let weather_text := get_weather (fmt (city r)) in
    let text := cat ["⏰ Напоминание о погоде в "; fmt (city r); ":"; PyStr.nl; weather_text] in
    attempt (send_message (user_id r) text)
  else
    let text := cat ["⏰ Напоминание: "; name r] in
    if truthy_opt (file_id r) then
      if is_str (file_type r) "photo" then
        attempt (send_photo (user_id r) (fmt (file_id r)) text)
      else if is_str (file_type r) "document" then
        attempt (send_document (user_id r) (fmt (file_id r)) text)
      else if is_str (file_type r) "audio" then
        attempt (send_audio (user_id r) (fmt (file_id r)) text)
      else []
    else attempt (send_message (user_id r) text).

(** *** [schedule_reminder] (lines 453-473) *)

(** Lines 464-467: the new [next_run] of the in-memory reminder. *)
Definition advance (r : Reminder) : result Reminder :=
  if is_str (repeat_interval r) "daily" then
    t <- Datetime.add_day (next_run r) ;;
    Ok (set_next_run r t)
  else if is_str (repeat_interval r) "monthly" then
    t <- Datetime.replace (next_run r) (Datetime.year (next_run r))
                          (Datetime.month (next_run r) + 1) ;;
    Ok (set_next_run r t)
  else Ok r.

(** Where the coroutine of one reminder stands. *)
Inductive task : Type :=
| Ready (r : Reminder)                  (* at the head of the loop, line 455 *)
| Sleeping (r : Reminder) (delay : Z)   (* inside [asyncio.sleep], line 459 *)
| Returned (r : Reminder)               (* left the loop by [break] *)
| Raised (e : exn) (r : Reminder).      (* ended by an exception *)

(** One run of the coroutine.  [clock] holds the values [datetime.now()]
    returns at line 455, one per turn of the loop; the run stops at the
    head of the loop when they are used up. *)
Fixpoint schedule_reminder (clock : list Datetime.datetime) (r : Reminder)
  : list event * task :=
  match clock with
  | [] => ([], Ready r)
  | now :: clock' =>
      let delay := Datetime.sub_us (next_run r) now in
      if 0 <? delay then
        let done := Sleep delay :: send_reminder r in
        if truthy_opt (repeat_interval r) then
          match advance r with
          | Ok r' =>
              let (more, t) := schedule_reminder clock' r' in
              (done ++ more, t)
          | Raise e => (done, Raised e r)
          end
        else (done, Returned r)
      else ([], Returned r)
  end.

(** *** [process_time] (lines 206-251) *)

(** Lines 212-220. *)
Definition detect_repeat (time_str : string) : option string * string :=
  let clean_time_str := PyStr.lower time_str in
  if truthy (py_or (PyStr "каждый день")
                   (PyBool (PyStr.contains "Каждый день" clean_time_str))) then
    (Some "ежедневно",
     PyStr.strip (PyStr.replace (PyStr.lower time_str) "каждый день" EmptyString))
  else if truthy (py_or (PyStr "каждый месяц")
                        (PyBool (PyStr.contains "Каждый месяц" clean_time_str))) then
    (Some "ежемесячно",
     PyStr.strip (PyStr.replace (PyStr.lower time_str) "каждый месяц" EmptyString))
  else (None, time_str).

(** Lines 238-245. *)
Definition adjust (parsed_time now : Datetime.datetime) (repeat : option string)
  : result Datetime.datetime :=
  if Datetime.ltb parsed_time now && truthy_opt repeat then
    if is_str repeat "daily" then Datetime.add_day parsed_time
    else if is_str repeat "monthly" then
      p <- Datetime.replace parsed_time (Datetime.year now) (Datetime.month now + 1) ;;
      if Datetime.ltb p now
      then Datetime.replace p (Datetime.year p) (Datetime.month p + 1)
      else Ok p
    else Ok parsed_time
  else Ok parsed_time.

(** What the handler puts into the conversation state (lines 247-251), or
    that the time was not recognised (line 235). *)
Inductive resolution : Type :=
| Unrecognised
| Resolved (time : Datetime.datetime) (repeat_interval : option string)
           (next_run : Datetime.datetime).

(** [base] is [datetime.now()] at line 228 and [now] the one at line 238. *)
Definition process_time (text : string) (base now : Datetime.datetime)
  : result resolution :=
  let (repeat, time_str) := detect_repeat text in
  match dateparser_parse time_str base with
  | None => Ok Unrecognised
  | Some parsed_time =>
      t <- adjust parsed_time now repeat ;;
      Ok (Resolved t repeat t)
  end.

(** *** The query of [show_reminders] (lines 117-120) *)

Fixpoint insert_by_next_run (r : Reminder) (l : list Reminder) : list Reminder :=
  match l with
  | [] => [r]
  | x :: l' =>
      if Datetime.leb (next_run r) (next_run x) then r :: l
      else x :: insert_by_next_run r l'
  end.

(** [ORDER BY next_run] *)
Fixpoint order_by_next_run (l : list Reminder) : list Reminder :=
  match l with
  | [] => []
  | r :: l' => insert_by_next_run r (order_by_next_run l')
  end.

Definition is_active (from_user : Z) (now : Datetime.datetime) (r : Reminder) : bool :=
  (user_id r =? from_user) &&
  (Datetime.ltb now (next_run r) || is_not_none (repeat_interval r)).

Definition show_reminders (table : list Reminder) (from_user : Z)
           (now : Datetime.datetime) : list Reminder :=
  order_by_next_run (filter (is_active from_user now) table).

(** Ascending order of [next_run]. *)
Definition next_run_le (a b : Reminder) : Prop :=
  Datetime.leb (next_run a) (next_run b) = true.

(** *** [delete_reminder] (lines 291-321) *)

(** The table after the handler, and the text it answers with. *)
Definition delete_reminder (table : list Reminder) (from_user reminder_id : Z)
  : list Reminder * string :=
  match find (fun r => id r =? reminder_id) table with
  | Some reminder =>
      if user_id reminder =? from_user then
        (filter (fun r => negb (id r =? reminder_id)) table, "Напоминание удалено ✅")
      else (table, "Ошибка удаления")
  | None => (table, "Ошибка удаления")
  end.

(** *** Recovery in [main] (lines 544-548) *)

(** The tasks [main] creates, one per row the query returns. *)
Definition main (table : list Reminder) (now : Datetime.datetime) : list task :=
  map Ready (filter (fun r => Datetime.ltb now (next_run r)) table).

(** *** The event loop

    The coroutines of the reminders and the handlers run on one event
    loop and are interleaved at their [await]s.  A task owns its
    [Reminder] object: the session that loaded it is closed before the
    task runs (lines 448-450 and 545-548), and every handler loads objects
    of its own.  Line 468 commits a session opened at line 463, to which
    the task's object does not belong, so the table is not touched by a
    task. *)

Record system : Type := mkSystem {
  table : list Reminder;   (* the rows of [reminders] *)
  tasks : list task        (* the tasks created so far *)
}.

Inductive input : Type :=
| Tick (k : nat) (now : Datetime.datetime)  (* task [k] runs the head of its loop *)
| Wake (k : nat)                            (* the sleep of task [k] is over *)
| Delete (from_user reminder_id : Z).       (* a [delete_...] callback arrives *)

Inductive output : Type :=
| FromTask (reminder_id : Z) (e : event)
| Answer (text : string).

(** Lines 455-459 and 472-473. *)
Definition loop_head (now : Datetime.datetime) (r : Reminder) : list event * task :=
  let delay := Datetime.sub_us (next_run r) now in
  if 0 <? delay then ([Sleep delay], Sleeping r delay) else ([], Returned r).

(** Lines 460-471. *)
Definition after_sleep (r : Reminder) : list event * task :=
  let done := send_reminder r in
  if truthy_opt (repeat_interval r) then
    match advance r with
    | Ok r' => (done, Ready r')
    | Raise e => (done, Raised e r)
    end
  else (done, Returned r).

Fixpoint update {A : Type} (l : list A) (k : nat) (x : A) : list A :=
  match l, k with
  | [], _ => []
  | _ :: l', O => x :: l'
  | y :: l', S k' => y :: update l' k' x
  end.

Definition step (s : system) (i : input) : system * list output :=
  match i with
  | Tick k now =>
      match nth_error (tasks s) k with
      | Some (Ready r) =>
          let (evs, t) := loop_head now r in
          (mkSystem (table s) (update (tasks s) k t), map (FromTask (id r)) evs)
      | _ => (s, [])
      end
  | Wake k =>
      match nth_error (tasks s) k with
      | Some (Sleeping r _) =>
          let (evs, t) := after_sleep r in
          (mkSystem (table s) (update (tasks s) k t), map (FromTask (id r)) evs)
      | _ => (s, [])
      end
  | Delete from_user reminder_id =>
      let (rows, text) := delete_reminder (table s) from_user reminder_id in
      (mkSystem rows (tasks s), [Answer text])
  end.

Fixpoint run (s : system) (inputs : list input) : system * list output :=
  match inputs with
  | [] => (s, [])
  | i :: inputs' =>
      let (s', out) := step s i in
      let (s'', out') := run s' inputs' in
      (s'', out ++ out')
  end.

(** The process right after start-up. *)
Definition boot (rows : list Reminder) (now : Datetime.datetime) : system :=
  mkSystem rows (main rows now).

(** The gateway calls made on behalf of one reminder. *)
Definition deliveries (reminder_id : Z) (out : list output) : list gateway_call :=
  flat_map (fun o =>
              match o with
              | FromTask i (Call c) => if i =? reminder_id then [c] else []
              | _ => []
              end) out.

(** After the owner's deletion of a reminder no gateway call is made
    for it any more, whatever happens later. *)
Definition silent_after_delete (s : system) (from_user reminder_id : Z) : Prop :=
  forall later,
    deliveries reminder_id
      (snd (run (fst (step s (Delete from_user reminder_id))) later)) = [].

Definition task_reminder (t : task) : Reminder :=
  match t with
  | Ready r | Sleeping r _ | Returned r | Raised _ r => r
  end.

(** How many of the tasks [ts] were created for the row [reminder_id]. *)
Definition armed_for (reminder_id : Z) (ts : list task) : nat :=
  List.length (filter (fun t => id (task_reminder t) =? reminder_id) ts).

End Bot.

(** ** Numbers and lists of strings *)

Module PyConv.

(** [str(n)] for an [int]. *)
Definition str (n : Z) : string := DecimalString.NilZero.string_of_int (Z.to_int n).

(** [int(s)] for a [str], base 10: white space around the number is
    dropped, a sign may come first, and digits follow.  [None] stands for
    [ValueError].  Digits outside ASCII and underscores between digits are
    not covered. *)
Definition int (s : string) : option Z :=
  match PyStr.strip s with
  | EmptyString => None
  | String c t as u =>
      if Ascii.eqb c "+"
      then option_map (fun d => Z.of_uint d) (DecimalString.NilZero.uint_of_string t)
      else option_map Z.of_int (DecimalString.NilZero.int_of_string u)
  end.

(** [s.split(sep)] for a separator of one character. *)
Fixpoint split (sep : ascii) (s : string) : list string :=
  match s with
  | EmptyString => [EmptyString]
  | String c s' =>
      if Ascii.eqb c sep then EmptyString :: split sep s'
      else
        match split sep s' with
        | part :: parts => String c part :: parts
        | [] => [String c EmptyString]
        end
  end.

(** Every character of [s] satisfies [p]. *)
Fixpoint all_chars (p : ascii -> bool) (s : string) : bool :=
  match s with
  | EmptyString => true
  | String c s' => p c && all_chars p s'
  end.

(** The characters [str] writes: the digits and the minus sign. *)
Definition is_numeric (c : ascii) : bool :=
  let n := nat_of_ascii c in
  (Nat.eqb n 45 || (Nat.leb 48 n && Nat.leb n 57))%bool.

End PyConv.

(** ** The other handlers *)

(** The absolute time of a datetime in microseconds, counted from the
    start of day 0 of the ordinal calendar; [sub_us a b] is the difference
    of two of them. *)
Definition stamp (t : Datetime.datetime) : Z :=
  (Datetime.toordinal t * 86400 + Datetime.seconds_of_day t) * 1000000
  + Datetime.microsecond t.

Definition same_date (a b : Datetime.datetime) : Prop :=
  Datetime.year a = Datetime.year b /\
  Datetime.month a = Datetime.month b /\
  Datetime.day a = Datetime.day b.

(** The message [process_file] handles: the file id of the document, the
    file ids of the sizes of the photo, the file id of the audio. *)
Record attachment_message : Type := mkAttachment {
  document : option string;
  photo : list string;
  audio : option string
}.

(** The conversation data [save_and_schedule] reads; [None] is a key
    that is absent. *)
Record fsm_data : Type := mkData {
  data_name : option string;
  data_time : option Datetime.datetime;
  data_repeat_interval : option string;
  data_is_weather : option bool;
  data_city : option string;
  data_next_run : option Datetime.datetime
}.

Record button : Type := mkButton {
  button_text : string;
  callback_data : string
}.

(** What can go wrong in [int(callback.data.split("_")[1])]. *)
Inductive callback_error : Type :=
| IndexError       (* the data has no second part *)
| IntValueError.   (* the second part is not a number *)

Definition set_name (r : Reminder) (n : string) : Reminder :=
  mkReminder (id r) (user_id r) n (time r) (repeat_interval r)
             (is_weather r) (city r) (file_id r) (file_type r) (next_run r).

Definition set_time (r : Reminder) (t : Datetime.datetime) : Reminder :=
  mkReminder (id r) (user_id r) (name r) t (repeat_interval r)
             (is_weather r) (city r) (file_id r) (file_type r) t.

(** The chat a gateway call goes to. *)
Definition chat_of (c : gateway_call) : Z :=
  match c with
  | send_message i _ => i
  | send_photo i _ _ => i
  | send_document i _ _ => i
  | send_audio i _ _ => i
  end.

(** The gateway calls of a trace, and its sleeps. *)
Definition calls (evs : list event) : list gateway_call :=
  flat_map (fun e => match e with Call c => [c] | _ => [] end) evs.

Definition sleeps (evs : list event) : list Z :=
  flat_map (fun e => match e with Sleep d => [d] | _ => [] end) evs.

Section Handlers.

Variable gateway : gateway_call -> option string.
Variable weather : string -> lookup.

(** [dateparser.parse] with the settings of [process_edit_time]
    (lines 369-376), by the text and the [RELATIVE_BASE] setting. *)
Variable dateparser_parse_edit : string -> Datetime.datetime -> option Datetime.datetime.

(** [t.strftime(format)] *)
Variable strftime : string -> Datetime.datetime -> string.

(** *** [create_reminders_keyboard] (lines 79-92) *)

Definition create_reminders_keyboard (reminders : list Reminder) : list (list button) :=
  map (fun rem =>
         [mkButton (cat ["✖️ "; name rem]) (cat ["delete_"; PyConv.str (id rem)]);
          mkButton (cat ["✏️ "; name rem]) (cat ["edit_"; PyConv.str (id rem)])])
      reminders.

(** *** The query of [show_today_reminders] (lines 146-155) *)

(** [t.replace(hour=0, minute=0, second=0, microsecond=0)] *)
Definition midnight (t : Datetime.datetime) : Datetime.datetime :=
  Datetime.mk (Datetime.year t) (Datetime.month t) (Datetime.day t) 0 0 0 0.

(** [now] is [datetime.now()] at line 146 and [now'] the one at line 147. *)
Definition show_today_reminders (table : list Reminder) (from_user : Z)
           (now now' : Datetime.datetime) : result (list Reminder) :=
  let today_start := midnight now' in
  today_end <- Datetime.add_day today_start ;;
  Ok (filter (fun r =>
                (user_id r =? from_user) &&
                Datetime.leb today_start (next_run r) &&
                Datetime.ltb (next_run r) today_end &&
                Datetime.ltb now (next_run r))
             table).

(** *** [process_weather_city] (lines 180-190) *)

(** The handler either answers with the text of [get_weather] and stays in
    its state, or stores the city and asks for the time. *)
Inductive city_step : Type :=
| CityRejected (answer : string)
| CityAccepted (city : option string) (is_weather : bool).

Definition process_weather_city (text : option string) : city_step :=
  let city := text in
  let weather_text := get_weather weather (fmt city) in
  if PyStr.contains "Ошибка" weather_text then CityRejected weather_text
  else CityAccepted city true.

(** *** [process_file] (lines 262-277) *)

(** [file_id] and [file_type] as lines 264-275 set them. *)
Definition process_file (message : attachment_message) : option string * option string :=
  match document message with
  | Some f => (Some f, Some "document")
  | None =>
      match photo message with
      | _ :: _ => (Some (last (photo message) EmptyString), Some "photo")
      | [] =>
          match audio message with
          | Some f => (Some f, Some "audio")
          | None => (None, None)
          end
      end
  end.

(** *** [save_and_schedule] (lines 419-450) *)

Inductive saved : Type :=
| KeyError (key : string)                 (* line 425 or 431: nothing is stored *)
| SendFailed (s : system) (msg : string)  (* line 447 raises: no task is created *)
| Saved (s : system) (sent : gateway_call).

(** [new_id] is the key the database gives to the new row. *)
Definition save_and_schedule (s : system) (new_id : Z) (uid : Z) (data : fsm_data)
           (file_id file_type : option string) : saved :=
  match data_time data with
  | None => KeyError "time"
  | Some t =>
      match data_next_run data with
      | None => KeyError "next_run"
      | Some nr =>
          let reminder :=
            mkReminder new_id uid
                       (match data_name data with
                        | Some n => n
                        | None => "Напоминание о погоде"
                        end)
                       t (data_repeat_interval data)
                       (match data_is_weather data with
                        | Some b => b
                        | None => false
                        end)
                       (data_city data) file_id file_type nr in
          let rows := table s ++ [reminder] in
          let message_text :=
            cat ["✅ Напоминание '"; name reminder; "' создано!"; PyStr.nl;
                 "Следующий запуск: "; strftime "%d.%m.%Y %H:%M" (next_run reminder);
                 (if truthy_opt (repeat_interval reminder)
                  then cat [PyStr.nl; "Повтор: "; fmt (repeat_interval reminder)]
                  else EmptyString);
                 (if is_weather reminder
                  then cat [PyStr.nl; "Город: "; fmt (city reminder)]
                  else EmptyString)] in
          match gateway (send_message uid message_text) with
          | Some msg => SendFailed (mkSystem rows (tasks s)) msg
          | None =>
              Saved (mkSystem rows (tasks s ++ [Ready reminder]))
                    (send_message uid message_text)
          end
      end
  end.

(** *** The callbacks (lines 294 and 325) *)

Definition callback_id (data : string) : callback_error + Z :=
  match nth_error (PyConv.split "_" data) 1 with
  | None => inl IndexError
  | Some part =>
      match PyConv.int part with
      | None => inl IntValueError
      | Some n => inr n
      end
  end.

(** [delete_reminder] from the data of the callback.  When the id cannot
    be read the handler answers with the text of the exception and the
    table stays as it is. *)
Definition delete_callback (table : list Reminder) (from_user : Z) (data : string)
  : callback_error + list Reminder * string :=
  match callback_id data with
  | inl e => inl e
  | inr reminder_id => inr (delete_reminder table from_user reminder_id)
  end.

(** [edit_reminder] (lines 323-340): the [edit_id] put into the
    conversation data, if any. *)
Definition edit_reminder (table : list Reminder) (from_user : Z) (data : string)
  : callback_error + option Z :=
  match callback_id data with
  | inl e => inl e
  | inr reminder_id =>
      match find (fun r => id r =? reminder_id) table with
      | Some reminder =>
          if user_id reminder =? from_user then inr (Some reminder_id) else inr None
      | None => inr None
      end
  end.

(** *** [process_edit] (lines 343-357) *)

Definition process_edit (table : list Reminder) (edit_id : Z) (text : string)
  : list Reminder :=
  if negb (String.eqb text "/skip") then
    map (fun r => if id r =? edit_id then set_name r text else r) table
  else table.

(** *** [process_edit_time] (lines 360-416) *)

(** The table after the handler and the rows its answer lists, or the
    exception caught at line 412 (the row is gone and a time was parsed). *)
Inductive edit_outcome : Type :=
| Edited (rows listed : list Reminder)
| EditFailed.

(** [base] is [datetime.now()] at line 374 and [now] the one at line 397. *)
Definition process_edit_time (table : list Reminder) (from_user edit_id : Z)
           (text : string) (base now : Datetime.datetime) : edit_outcome :=
  let listing rows := filter (is_active from_user now) rows in
  if negb (String.eqb text "/skip") then
    match dateparser_parse_edit text base with
    | Some parsed_time =>
        match find (fun r => id r =? edit_id) table with
        | Some _ =>
            let rows := map (fun r => if id r =? edit_id then set_time r parsed_time else r)
                            table in
            Edited rows (listing rows)
        | None => EditFailed
        end
    | None => Edited table (listing table)
    end
  else Edited table (listing table).

End Handlers.

(** ** Sample data *)

Definition at_time (y m d h mi : Z) : Datetime.datetime := Datetime.mk y m d h mi 0 0.

Definition mar1_0800 : Datetime.datetime := at_time 2024 3 1 8 0.
Definition mar1_0900 : Datetime.datetime := at_time 2024 3 1 9 0.
Definition mar2_0800 : Datetime.datetime := at_time 2024 3 2 8 0.

(** A gateway on which every call succeeds. *)
Definition quiet_gateway (c : gateway_call) : option string := None.

(** A weather service that answers 404 for every city. *)
Definition city_not_found (city : string) : lookup :=
  LookupJson (mkJson (Some (CodStr "404")) (Some "city not found") (inl "'main'")).

(** A parser that reads the date written in the phrases below. *)
Definition parse_as (t : Datetime.datetime) (text : string) (base : Datetime.datetime)
  : option Datetime.datetime := Some t.

(** "Take pills", as [process_time] and [save_and_schedule] store it for a
    phrase with "каждый день". *)
Definition pills : Reminder :=
  mkReminder 1 42 "Take pills" (at_time 2024 3 2 8 0) (Some "ежедневно")
             false None None None (at_time 2024 3 2 8 0).

(** A weather reminder for Paris, stored the same way. *)
Definition paris : Reminder :=
  mkReminder 2 42 "Напоминание о погоде" (at_time 2024 3 2 8 0) (Some "ежедневно")
             true (Some "Paris") None None (at_time 2024 3 2 8 0).

(** A row with the tag the scheduler looks for, due on a 31st. *)
Definition rent : Reminder :=
  mkReminder 3 42 "Pay rent" (at_time 2024 1 31 8 0) (Some "monthly")
             false None None None (at_time 2024 1 31 8 0).

(** The same, due in December. *)
Definition gifts : Reminder :=
  mkReminder 4 42 "Buy gifts" (at_time 2024 12 15 8 0) (Some "monthly")
             false None None None (at_time 2024 12 15 8 0).

(** A one-off reminder whose time has passed. *)
Definition overdue : Reminder :=
  mkReminder 5 42 "Call mum" (at_time 2024 3 1 8 0) None
             false None None None (at_time 2024 3 1 8 0).

(** The process after a start on 2024-03-01 at 09:00 with "Take pills" as
    the only row, its task asleep until 2024-03-02 08:00. *)
Definition pills_armed : system :=
  mkSystem [pills] [Sleeping pills 82800000000].

(** A one-off reminder with an attachment of a kind that is not sent. *)
Definition clip : Reminder :=
  mkReminder 6 42 "Watch this" (at_time 2024 3 2 8 0) None
             false None (Some "BAACAgIAAxkBAAIB") (Some "video") (at_time 2024 3 2 8 0).

(** Rows with the tags the scheduler advances. *)
Definition walk : Reminder :=
  mkReminder 7 42 "Walk" (at_time 2024 2 28 8 0) (Some "daily")
             false None None None (at_time 2024 2 28 8 0).

Definition bills : Reminder :=
  mkReminder 8 42 "Pay bills" (at_time 2024 2 15 8 0) (Some "monthly")
             false None None None (at_time 2024 2 15 8 0).

(** A reminder of another user. *)
Definition theirs : Reminder :=
  mkReminder 9 77 "Water plants" (at_time 2024 3 2 8 0) None
             false None None None (at_time 2024 3 2 8 0).

Definition mar2_0700 : Datetime.datetime := at_time 2024 3 2 7 0.
Definition mar2_1000 : Datetime.datetime := at_time 2024 3 2 10 0.

(** A message with a photo in two sizes, and the reminder made of it. *)
Definition photo_message : attachment_message :=
  mkAttachment None ["AgACAgIAAxkBAAIBsmall"; "AgACAgIAAxkBAAIBlarge"] None.

Definition snapshot : Reminder :=
  mkReminder 10 42 "Look at this" mar2_0800 None
             false None (Some "AgACAgIAAxkBAAIBlarge") (Some "photo") mar2_0800.

(** A formatter for the samples: day.month.year hour:minute, without
    padding. *)
Definition sample_strftime (format : string) (t : Datetime.datetime) : string :=
  cat [PyConv.str (Datetime.day t); "."; PyConv.str (Datetime.month t); ".";
       PyConv.str (Datetime.year t); " ";
       PyConv.str (Datetime.hour t); ":"; PyConv.str (Datetime.minute t)].

(** The data of a conversation that ended with the phrase
    "каждый день в 10:00", and the row made of them. *)
Definition stretch_data : fsm_data :=
  mkData (Some "Stretch") (Some mar2_1000) (Some "ежедневно") None None (Some mar2_1000).

Definition stretch : Reminder :=
  mkReminder 2 42 "Stretch" mar2_1000 (Some "ежедневно") false None None None mar2_1000.

(** * Properties *)

(** ** Datetimes *)

Module DatetimeFacts.
Import Datetime.

Lemma lex_refl (a : list Z) : lex a a = Eq.
Proof.
  induction a as [|x a IH]; simpl; [reflexivity|].
  now rewrite Z.compare_refl.
Qed.

Lemma lex_antisym (a b : list Z) : lex b a = CompOpp (lex a b).
Proof.
  revert b; induction a as [|x a IH]; intros [|y b]; simpl; try reflexivity.
  rewrite (Z.compare_antisym x y).
  destruct (x ?= y); simpl; auto.
Qed.

Lemma lex_trans_lt_eq (a b c : list Z) :
  (lex a b = Lt -> lex b c <> Gt -> lex a c = Lt) /\
  (lex a b = Eq -> lex a c = lex b c).
Proof.
  revert b c; induction a as [|x a IH]; intros [|y b] [|z c]; simpl;
    try (split; intros; congruence).
  destruct (Z.compare_spec x y) as [->|Hxy|Hxy].
  - destruct (Z.compare_spec y z); try (split; intros; congruence).
    apply IH.
  - split; [|discriminate]. intros _.
    destruct (Z.compare_spec y z) as [->|Hyz|Hyz].
    + intros _. now apply Z.compare_lt_iff in Hxy as ->.
    + intros _. assert (x < z) as ->%Z.compare_lt_iff by lia. reflexivity.
    + congruence.
  - split; discriminate.
Qed.

Lemma leb_total (a b : datetime) : leb a b = false -> leb b a = true.
Proof.
  unfold leb, cmp. rewrite (lex_antisym (fields a) (fields b)).
  destruct (lex (fields a) (fields b)); simpl; congruence.
Qed.

Lemma leb_trans (a b c : datetime) : leb a b = true -> leb b c = true -> leb a c = true.
Proof.
  unfold leb, cmp. intros Hab Hbc.
  destruct (lex_trans_lt_eq (fields a) (fields b) (fields c)) as [Hlt Heq].
  destruct (lex (fields a) (fields b)) eqn:E; try discriminate.
  - rewrite (Heq eq_refl). exact Hbc.
  - rewrite Hlt; auto. destruct (lex (fields b) (fields c)); congruence.
Qed.

(** A year has 365 days, and one more when it is a leap year. *)
Lemma days_before_next_year (y : Z) :
  days_before_year (y + 1) = days_before_year y + 365 + (if is_leap y then 1 else 0).
Proof.
  unfold days_before_year, is_leap.
  replace (y + 1 - 1) with y by lia.
  destruct (Z.eqb_spec (y mod 4) 0) as [H4|H4];
    destruct (Z.eqb_spec (y mod 100) 0) as [H100|H100];
    destruct (Z.eqb_spec (y mod 400) 0) as [H400|H400]; simpl;
    Z.to_euclidean_division_equations; lia.
Qed.

Lemma days_before_next_month (y m : Z) :
  1 <= m < 12 ->
  days_before_month y (m + 1) = days_before_month y m + days_in_month y m.
Proof.
  intros Hm. unfold days_before_month, days_in_month.
  assert (m = 1 \/ m = 2 \/ m = 3 \/ m = 4 \/ m = 5 \/ m = 6 \/ m = 7 \/
          m = 8 \/ m = 9 \/ m = 10 \/ m = 11) as Hcases by lia.
  destruct (is_leap y);
    repeat (destruct Hcases as [->|Hcases]; [reflexivity|]); subst; reflexivity.
Qed.

Lemma valid_date_spec (t : datetime) :
  valid_date t = true ->
  1 <= year t <= 9999 /\ 1 <= month t <= 12 /\
  1 <= day t <= days_in_month (year t) (month t).
Proof. unfold valid_date, MINYEAR, MAXYEAR. rewrite !andb_true_iff. lia. Qed.

(** [add_day] moves the ordinal of the date by one, keeps the time of
    day, yields a valid date, and the result is later than the argument. *)
Lemma add_day_spec (t t' : datetime) :
  valid_date t = true ->
  add_day t = Ok t' ->
  toordinal t' = toordinal t + 1 /\
  sub_us t' t = 86400000000 /\
  valid_date t' = true /\
  ltb t t' = true.
Proof.
  intros Hv%valid_date_spec. destruct Hv as (Hy & Hm & Hd).
  unfold add_day.
  assert (Hord : forall u, toordinal u = toordinal t + 1 ->
                           hour u = hour t -> minute u = minute t ->
                           second u = second t -> microsecond u = microsecond t ->
                           sub_us u t = 86400000000).
  { intros u Ho Hh Hmi Hs Hus. unfold sub_us, seconds_of_day.
    rewrite Ho, Hh, Hmi, Hs, Hus. lia. }
  destruct (Z.ltb_spec (day t) (days_in_month (year t) (month t))) as [Hlt|Hge].
  - intros [= <-].
    assert (toordinal (mk (year t) (month t) (day t + 1) (hour t) (minute t)
                          (second t) (microsecond t)) = toordinal t + 1) as Ho
        by (unfold toordinal, ymd2ord; simpl; lia).
    repeat split; auto.
    + unfold valid_date, MINYEAR, MAXYEAR; simpl. rewrite !andb_true_iff. lia.
    + unfold ltb, cmp; cbn [fields lex year month day]. rewrite !Z.compare_refl.
      assert (day t < day t + 1) as ->%Z.compare_lt_iff by lia. reflexivity.
  - destruct (Z.ltb_spec (month t) 12) as [Hm12|Hm12].
    + intros [= <-].
      assert (toordinal (mk (year t) (month t + 1) 1 (hour t) (minute t)
                            (second t) (microsecond t)) = toordinal t + 1) as Ho.
      { unfold toordinal, ymd2ord; simpl.
        rewrite days_before_next_month by lia. lia. }
      repeat split; auto.
      * unfold valid_date, MINYEAR, MAXYEAR; simpl. rewrite !andb_true_iff.
        assert (28 <= days_in_month (year t) (month t + 1)).
        { unfold days_in_month.
          assert (month t = 1 \/ month t = 2 \/ month t = 3 \/ month t = 4 \/
                  month t = 5 \/ month t = 6 \/ month t = 7 \/ month t = 8 \/
                  month t = 9 \/ month t = 10 \/ month t = 11) as Hc by lia.
          destruct (is_leap (year t));
            repeat (destruct Hc as [->|Hc]; [simpl; lia|]); rewrite Hc; simpl; lia. }
        lia.
      * unfold ltb, cmp; cbn [fields lex year month day]. rewrite !Z.compare_refl.
        assert (month t < month t + 1) as ->%Z.compare_lt_iff by lia. reflexivity.
    + destruct (Z.ltb_spec (year t) MAXYEAR) as [Hy9|Hy9]; [|discriminate].
      intros [= <-]. unfold MAXYEAR in Hy9.
      assert (month t = 12) as H12 by lia.
      assert (day t = 31) as H31.
      { rewrite H12 in Hd, Hge. unfold days_in_month in Hd, Hge. simpl in Hd, Hge. lia. }
      assert (toordinal (mk (year t + 1) 1 1 (hour t) (minute t)
                            (second t) (microsecond t)) = toordinal t + 1) as Ho.
      { unfold toordinal, ymd2ord; simpl. rewrite H12, H31.
        rewrite days_before_next_year. unfold days_before_month. simpl.
        destruct (is_leap (year t)); simpl; lia. }
      repeat split; auto.
      * unfold valid_date, MINYEAR, MAXYEAR; simpl. rewrite !andb_true_iff.
        unfold days_in_month; simpl. lia.
      * unfold ltb, cmp; cbn [fields lex year month day].
        assert (year t < year t + 1) as ->%Z.compare_lt_iff by lia. reflexivity.
Qed.

End DatetimeFacts.

(** ** The resolver *)

Section ResolverFacts.

Variable parse : string -> Datetime.datetime -> option Datetime.datetime.

(** The test of line 215 does not look at the phrase: its left operand
    is a non-empty literal. *)
Lemma first_test_holds (clean_time_str : string) :
  truthy (py_or (PyStr "каждый день")
                (PyBool (PyStr.contains "Каждый день" clean_time_str))) = true.
Proof. reflexivity. Qed.

Lemma detect_repeat_any (time_str : string) :
  detect_repeat time_str =
  (Some "ежедневно",
   PyStr.strip (PyStr.replace (PyStr.lower time_str) "каждый день" EmptyString)).
Proof. reflexivity. Qed.

(** The tag written at line 216 is none of the two that lines 240 and 242
    compare with, so the parsed time is stored as it is. *)
Lemma adjust_stored_tag (parsed_time now : Datetime.datetime) :
  adjust parsed_time now (Some "ежедневно") = Ok parsed_time.
Proof. unfold adjust. destruct (Datetime.ltb parsed_time now); reflexivity. Qed.

Lemma process_time_any (text : string) (base now : Datetime.datetime) :
  process_time parse text base now =
  match parse (snd (detect_repeat text)) base with
  | Some t => Ok (Resolved t (Some "ежедневно") t)
  | None => Ok Unrecognised
  end.
Proof.
  unfold process_time. rewrite detect_repeat_any. cbn [snd].
  destruct (parse _ base) as [t|]; [|reflexivity].
  now rewrite adjust_stored_tag.
Qed.

End ResolverFacts.

(** C2: a phrase without a recurrence keyword is to get the tag none, and
    "every month" the monthly tag with the keyword stripped.  The code tags
    both phrases below as daily ("ежедневно"), and leaves "каждый месяц" in
    the text it hands to the parser. *)
Theorem process_time_tags_every_phrase_daily :
  process_time (parse_as (at_time 2024 3 2 10 0)) "Завтра в 10:00" mar1_0900 mar1_0900
    = Ok (Resolved (at_time 2024 3 2 10 0) (Some "ежедневно") (at_time 2024 3 2 10 0)) /\
  detect_repeat "Завтра в 10:00" = (Some "ежедневно", "завтра в 10:00") /\
  detect_repeat "Каждый месяц 5 числа в 10:00"
    = (Some "ежедневно", "каждый месяц 5 числа в 10:00").
Proof. repeat split; reflexivity. Qed.

(** C3: a recurring phrase that resolves to a time before now is to be
    moved forward by one recurrence unit.  The code stores the past time
    unchanged: on 2024-03-01 at 09:00 the phrase below, read by the parser
    as 2024-03-01 08:00, is stored with [next_run] 2024-03-01 08:00. *)
Theorem process_time_keeps_past_time :
  Datetime.ltb mar1_0800 mar1_0900 = true /\
  process_time (parse_as mar1_0800) "каждый день 01.03.2024 в 08:00" mar1_0900 mar1_0900
    = Ok (Resolved mar1_0800 (Some "ежедневно") mar1_0800).
Proof. split; reflexivity. Qed.

(** ** The dispatcher *)

Section DispatcherFacts.

Variable gateway : gateway_call -> option string.
Variable weather : string -> lookup.

(** A failed lookup comes back as a text that starts with "Ошибка". *)
Lemma get_weather_failure (city : string) :
  lookup_failed (weather city) = true ->
  PyStr.startswith "Ошибка" (get_weather weather city) = true.
Proof.
  unfold get_weather, lookup_failed.
  destruct (weather city) as [msg|data]; [reflexivity|].
  destruct (cod data) as [c|]; [|reflexivity].
  intros ->. destruct (message data); reflexivity.
Qed.

(** A weather reminder is delivered as one text message, whatever the
    lookup gave. *)
Lemma send_reminder_weather (r : Reminder) :
  is_weather r = true ->
  send_reminder gateway weather r =
  attempt gateway
    (send_message (user_id r)
       (cat ["⏰ Напоминание о погоде в "; fmt (city r); ":"; PyStr.nl;
             get_weather weather (fmt (city r))])).
Proof. unfold send_reminder. now intros ->. Qed.

(** C10: a reminder that is not a weather reminder and has a [file_id]
    but a [file_type] other than photo, document and audio is delivered by
    no gateway call at all, and nothing is printed. *)
Theorem send_reminder_unknown_file_type (r : Reminder) :
  is_weather r = false ->
  truthy_opt (file_id r) = true ->
  file_type r <> Some "photo" ->
  file_type r <> Some "document" ->
  file_type r <> Some "audio" ->
  send_reminder gateway weather r = [].
Proof.
  intros Hw Hf Hp Hd Ha. unfold send_reminder. rewrite Hw, Hf.
  assert (Hno : forall k, file_type r <> Some k -> is_str (file_type r) k = false).
  { intros k Hk. unfold is_str. destruct (file_type r) as [t|]; [|reflexivity].
    destruct (String.eqb_spec t k); congruence. }
  now rewrite !Hno.
Qed.

End DispatcherFacts.

Lemma send_reminder_unknown_file_type_witness :
  send_reminder quiet_gateway city_not_found clip = [].
Proof.
  apply (send_reminder_unknown_file_type quiet_gateway city_not_found clip);
    [reflexivity | reflexivity | discriminate | discriminate | discriminate].
Defined.

(** ** The scheduling loop *)

Section SchedulerFacts.

Variable gateway : gateway_call -> option string.
Variable weather : string -> lookup.

(** One turn of the loop, in the steps of the event loop. *)
Lemma schedule_reminder_turn (now : Datetime.datetime) (clock : list Datetime.datetime)
      (r : Reminder) :
  schedule_reminder gateway weather (now :: clock) r =
  match loop_head now r with
  | (slept, Sleeping _ _) =>
      match after_sleep gateway weather r with
      | (done, Ready r') =>
          let (more, t) := schedule_reminder gateway weather clock r' in
          (slept ++ done ++ more, t)
      | (done, t) => (slept ++ done, t)
      end
  | (slept, t) => (slept, t)
  end.
Proof.
  cbn [schedule_reminder]. unfold loop_head, after_sleep.
  destruct (0 <? Datetime.sub_us (next_run r) now); [|reflexivity].
  destruct (truthy_opt (repeat_interval r)); [|reflexivity].
  destruct (advance r) as [r'|e]; [|reflexivity].
  now destruct (schedule_reminder gateway weather clock r').
Qed.

(** Lines 464-467 change nothing unless the tag is "daily" or "monthly". *)
Lemma advance_other_tag (r : Reminder) :
  is_str (repeat_interval r) "daily" = false ->
  is_str (repeat_interval r) "monthly" = false ->
  advance r = Ok r.
Proof. unfold advance. now intros -> ->. Qed.

(** With the tag "daily" the next run moves by exactly one day. *)
Lemma advance_daily (r r' : Reminder) :
  repeat_interval r = Some "daily" ->
  Datetime.valid_date (next_run r) = true ->
  advance r = Ok r' ->
  Datetime.sub_us (next_run r') (next_run r) = 86400000000 /\
  Datetime.ltb (next_run r) (next_run r') = true.
Proof.
  intros Hd Hv. unfold advance. rewrite Hd. cbn.
  destruct (Datetime.add_day (next_run r)) as [t|e] eqn:E; [|discriminate].
  cbn. intros [= <-]. cbn.
  destruct (DatetimeFacts.add_day_spec _ _ Hv E) as (_ & Hs & _ & Hl). auto.
Qed.

(** [replace] to the following month raises when that month does not
    exist or is too short for the day. *)
Lemma replace_next_month_overflow (t : Datetime.datetime) :
  Datetime.month t = 12 \/
  Datetime.days_in_month (Datetime.year t) (Datetime.month t + 1) < Datetime.day t ->
  Datetime.replace t (Datetime.year t) (Datetime.month t + 1) = Raise ValueError.
Proof.
  unfold Datetime.replace, Datetime.check_date_fields.
  intros H.
  destruct (negb _); [reflexivity|].
  destruct (negb ((1 <=? Datetime.month t + 1) && _)) eqn:Em; [reflexivity|].
  destruct (negb ((1 <=? Datetime.day t) && _)) eqn:Ed; [reflexivity|].
  apply negb_false_iff, andb_true_iff in Em, Ed. lia.
Qed.

(** C6, as the code has it: with [delay = next_run - now], a delay of zero
    or less ends the task without any delivery; otherwise the task sleeps
    for [delay] and then delivers. *)
Theorem schedule_reminder_arm (now : Datetime.datetime) (clock : list Datetime.datetime)
        (r : Reminder) :
  let delay := Datetime.sub_us (next_run r) now in
  (delay <= 0 ->
   schedule_reminder gateway weather (now :: clock) r = ([], Returned r)) /\
  (0 < delay ->
   exists more t,
     schedule_reminder gateway weather (now :: clock) r =
     (Sleep delay :: send_reminder gateway weather r ++ more, t)).
Proof.
  cbn zeta. split; intros Hd; cbn [schedule_reminder].
  - destruct (Z.ltb_spec 0 (Datetime.sub_us (next_run r) now)); [lia|reflexivity].
  - destruct (Z.ltb_spec 0 (Datetime.sub_us (next_run r) now)); [|lia].
    destruct (truthy_opt (repeat_interval r)).
    + destruct (advance r) as [r'|e].
      * destruct (schedule_reminder gateway weather clock r') as [more t].
        exists more, t. reflexivity.
      * exists [], (Raised e r). now rewrite app_nil_r.
    + exists [], (Returned r). now rewrite app_nil_r.
Qed.

End SchedulerFacts.

(** C6, as the claim has it, fails: a reminder that is due is to be fired
    at once.  "Call mum" was due at 08:00; armed at 09:00 it is dropped,
    although its delivery would have been one text message. *)
Lemma schedule_reminder_drops_overdue :
  Datetime.sub_us (next_run overdue) mar1_0900 <= 0 /\
  send_reminder quiet_gateway city_not_found overdue
    = [Call (send_message 42 "⏰ Напоминание: Call mum")] /\
  ~ (exists more t,
        schedule_reminder quiet_gateway city_not_found [mar1_0900] overdue
        = (send_reminder quiet_gateway city_not_found overdue ++ more, t)).
Proof.
  split; [|split].
  - vm_compute. congruence.
  - reflexivity.
  - intros (more & t & H). vm_compute in H. discriminate H.
Qed.

Lemma schedule_reminder_arm_witness :
  schedule_reminder quiet_gateway city_not_found [mar1_0900] overdue
    = ([], Returned overdue) /\
  exists more t,
    schedule_reminder quiet_gateway city_not_found [mar1_0900] pills
    = (Sleep 82800000000 :: send_reminder quiet_gateway city_not_found pills ++ more, t).
Proof.
  split.
  - apply (schedule_reminder_arm quiet_gateway city_not_found
             mar1_0900 [] overdue). vm_compute. congruence.
  - apply (schedule_reminder_arm quiet_gateway city_not_found
             mar1_0900 [] pills). reflexivity.
Defined.

(** C1: after each delivery of a recurring reminder the next run is to move
    by one day or one month and the wait is to be armed again.  "Take
    pills", stored with the tag [process_time] writes, is delivered once at
    2024-03-02 08:00; its next run stays where it was and the loop ends. *)
Theorem schedule_reminder_stored_tag_not_advanced :
  schedule_reminder quiet_gateway city_not_found
    [mar1_0900; Datetime.mk 2024 3 2 8 0 0 1500] pills
  = ([Sleep 82800000000; Call (send_message 42 "⏰ Напоминание: Take pills")],
     Returned pills).
Proof. reflexivity. Qed.

(** C4: adding a month is to roll over to the first valid day of the
    following month.  The code raises [ValueError] instead: in the
    scheduler for a reminder due on January 31st and for one due in
    December, which ends the task after the delivery, and in the adjustment
    of the resolver. *)
Theorem month_addition_raises :
  advance rent = Raise ValueError /\
  advance gifts = Raise ValueError /\
  schedule_reminder quiet_gateway city_not_found [at_time 2024 1 30 9 0] rent
    = ([Sleep 82800000000; Call (send_message 42 "⏰ Напоминание: Pay rent")],
       Raised ValueError rent) /\
  adjust (at_time 2024 1 31 8 0) (at_time 2024 1 31 9 0) (Some "monthly")
    = Raise ValueError.
Proof. repeat split; reflexivity. Qed.

(** C8: when the weather lookup fails the owner is to get a failure notice
    and a recurring reminder is to advance all the same.  The notice is
    sent; the weather reminder for Paris, stored with the tag
    [process_time] writes, keeps its next run and its loop ends. *)
Theorem failed_lookup_notice_without_advance :
  lookup_failed (city_not_found "Paris") = true /\
  schedule_reminder quiet_gateway city_not_found
    [mar1_0900; Datetime.mk 2024 3 2 8 0 1 0] paris
  = ([Sleep 82800000000;
      Call (send_message 42
              (cat ["⏰ Напоминание о погоде в Paris:"; PyStr.nl;
                    "Ошибка: city not found"]))],
     Returned paris).
Proof. split; reflexivity. Qed.

(** ** The listing *)

Section ListingFacts.

Lemma insert_by_next_run_perm (r : Reminder) (l : list Reminder) :
  Permutation (insert_by_next_run r l) (r :: l).
Proof.
  induction l as [|x l IH]; cbn; [reflexivity|].
  destruct (Datetime.leb (next_run r) (next_run x)); [reflexivity|].
  rewrite IH. apply perm_swap.
Qed.

Lemma order_by_next_run_perm (l : list Reminder) :
  Permutation (order_by_next_run l) l.
Proof.
  induction l as [|r l IH]; cbn; [reflexivity|].
  rewrite insert_by_next_run_perm. now constructor.
Qed.

Lemma insert_by_next_run_sorted (r : Reminder) (l : list Reminder) :
  Sorted next_run_le l -> Sorted next_run_le (insert_by_next_run r l).
Proof.
  induction 1 as [|x l Hs IH Hhd]; cbn.
  - repeat constructor.
  - destruct (Datetime.leb (next_run r) (next_run x)) eqn:E.
    + repeat constructor; assumption.
    + constructor; [exact IH|].
      apply DatetimeFacts.leb_total in E.
      destruct Hhd as [|y l Hxy]; cbn.
      * now constructor.
      * destruct (Datetime.leb (next_run r) (next_run y)); now constructor.
Qed.

Lemma order_by_next_run_sorted (l : list Reminder) :
  Sorted next_run_le (order_by_next_run l).
Proof.
  induction l as [|r l IH]; cbn; [constructor|].
  now apply insert_by_next_run_sorted.
Qed.

Lemma next_run_le_trans (a b c : Reminder) :
  next_run_le a b -> next_run_le b c -> next_run_le a c.
Proof. apply DatetimeFacts.leb_trans. Qed.

Lemma is_active_spec (from_user : Z) (now : Datetime.datetime) (r : Reminder) :
  is_active from_user now r = true <->
  user_id r = from_user /\
  (Datetime.ltb now (next_run r) = true \/ repeat_interval r <> None).
Proof.
  unfold is_active. rewrite andb_true_iff, orb_true_iff, Z.eqb_eq.
  destruct (repeat_interval r); cbn; intuition congruence.
Qed.

(** C9: the listing holds exactly the rows of the asking user for which
    [next_run > now] or the repeat interval is set, each as often as the
    table has it, in ascending order of [next_run]. *)
Theorem show_reminders_active_sorted (rows : list Reminder) (from_user : Z)
        (now : Datetime.datetime) :
  Permutation (show_reminders rows from_user now)
              (filter (is_active from_user now) rows) /\
  (forall r, In r (show_reminders rows from_user now) <->
             In r rows /\ user_id r = from_user /\
             (Datetime.ltb now (next_run r) = true \/ repeat_interval r <> None)) /\
  StronglySorted next_run_le (show_reminders rows from_user now).
Proof.
  unfold show_reminders. split; [|split].
  - apply order_by_next_run_perm.
  - intros r. split.
    + intros H. apply (Permutation_in _ (order_by_next_run_perm _)) in H.
      apply filter_In in H. now rewrite is_active_spec in H.
    + intros H. apply (Permutation_in _ (Permutation_sym (order_by_next_run_perm _))).
      apply filter_In. now rewrite is_active_spec.
  - apply Sorted_StronglySorted.
    + intros a b c. apply next_run_le_trans.
    + apply order_by_next_run_sorted.
Qed.

End ListingFacts.

(** ** Recovery *)

Section RecoveryFacts.

Lemma armed_for_absent (rows : list Reminder) (now : Datetime.datetime) (i : Z) :
  ~ In i (map id rows) -> armed_for i (main rows now) = O.
Proof.
  unfold armed_for, main. induction rows as [|x rows IH]; cbn; [reflexivity|].
  intros H. destruct (Datetime.ltb now (next_run x)); cbn.
  - destruct (Z.eqb_spec (id x) i) as [E|_]; [tauto|]. apply IH. tauto.
  - apply IH. tauto.
Qed.

(** C7: with the ids being a key of the table, [main] creates one task
    for every row whose [next_run] is after the time of the query and none
    for any other row, recurring or not; every task it creates stands at
    the head of the loop of such a row. *)
Theorem main_arms_future_rows_once (rows : list Reminder) (now : Datetime.datetime) :
  NoDup (map id rows) ->
  (forall r, In r rows ->
             armed_for (id r) (main rows now) =
             if Datetime.ltb now (next_run r) then 1%nat else 0%nat) /\
  (forall t, In t (main rows now) ->
             exists r, t = Ready r /\ In r rows /\ Datetime.ltb now (next_run r) = true).
Proof.
  intros Hnd. split.
  - induction rows as [|x rows IH]; intros r Hin; [destruct Hin|].
    cbn in Hnd. apply NoDup_cons_iff in Hnd as [Hx Hnd].
    destruct Hin as [->|Hin].
    + pose proof (armed_for_absent rows now (id r) Hx) as H0.
      unfold armed_for, main in *. cbn.
      destruct (Datetime.ltb now (next_run r)); cbn; [|exact H0].
      rewrite Z.eqb_refl. cbn. now rewrite H0.
    + specialize (IH Hnd r Hin).
      assert (id x <> id r) as Hne.
      { intros E. apply Hx. rewrite E. now apply in_map. }
      unfold armed_for, main in *. cbn.
      destruct (Datetime.ltb now (next_run x)); cbn; [|exact IH].
      destruct (Z.eqb_spec (id x) (id r)); [contradiction|exact IH].
  - intros t Ht. unfold main in Ht. apply in_map_iff in Ht as (r & <- & Hr).
    apply filter_In in Hr. exists r. tauto.
Qed.

End RecoveryFacts.

Lemma main_arms_future_rows_once_witness :
  armed_for (id pills) (main [overdue; pills; clip] mar1_0900) = 1%nat /\
  armed_for (id overdue) (main [overdue; pills; clip] mar1_0900) = 0%nat.
Proof.
  assert (Hkey : NoDup (map id [overdue; pills; clip])).
  { cbn. repeat constructor; cbn; intuition discriminate. }
  destruct (main_arms_future_rows_once [overdue; pills; clip] mar1_0900 Hkey)
    as [Hcount _].
  split.
  - apply (Hcount pills). cbn. tauto.
  - apply (Hcount overdue). cbn. tauto.
Defined.

(** ** Deletion and the event loop *)

Section EventLoopFacts.

Variable gateway : gateway_call -> option string.
Variable weather : string -> lookup.

Lemma deliveries_app (i : Z) (out out' : list output) :
  deliveries i (out ++ out') = deliveries i out ++ deliveries i out'.
Proof. apply flat_map_app. Qed.

(** A step of a task reads the tasks only; a deletion writes the table
    only. *)
Lemma step_same_tasks (s1 s2 : system) (i : input) (reminder_id : Z) :
  tasks s1 = tasks s2 ->
  tasks (fst (step gateway weather s1 i)) = tasks (fst (step gateway weather s2 i)) /\
  deliveries reminder_id (snd (step gateway weather s1 i)) =
  deliveries reminder_id (snd (step gateway weather s2 i)).
Proof.
  intros E. destruct i as [k now|k|u d]; cbn [step].
  - rewrite E. destruct (nth_error (tasks s2) k) as [[r|r dl|r|e r]|]; cbn; auto.
    destruct (loop_head now r); cbn. auto.
  - rewrite E. destruct (nth_error (tasks s2) k) as [[r|r dl|r|e r]|]; cbn; auto.
    destruct (after_sleep gateway weather r); cbn. auto.
  - destruct (delete_reminder (table s1) u d), (delete_reminder (table s2) u d).
    cbn. auto.
Qed.

Lemma run_same_tasks (inputs : list input) (s1 s2 : system) (reminder_id : Z) :
  tasks s1 = tasks s2 ->
  deliveries reminder_id (snd (run gateway weather s1 inputs)) =
  deliveries reminder_id (snd (run gateway weather s2 inputs)).
Proof.
  revert s1 s2. induction inputs as [|i inputs IH]; intros s1 s2 E; cbn [run];
    [reflexivity|].
  destruct (step_same_tasks s1 s2 i reminder_id E) as [Et Ed].
  destruct (step gateway weather s1 i) as [s1' o1], (step gateway weather s2 i) as [s2' o2].
  cbn [fst snd] in Et, Ed. specialize (IH s1' s2' Et).
  destruct (run gateway weather s1' inputs), (run gateway weather s2' inputs).
  cbn [fst snd] in *. now rewrite !deliveries_app, Ed, IH.
Qed.

(** C5, as the code has it: the deletion by the owner removes the row,
    and nothing else.  The tasks are as they were, a wait in progress
    among them, and every gateway call made later for the reminder is
    made exactly as without the deletion. *)
Theorem delete_reminder_leaves_wait (s : system) (from_user reminder_id : Z) :
  tasks (fst (step gateway weather s (Delete from_user reminder_id))) = tasks s /\
  (forall later,
      deliveries reminder_id
        (snd (run gateway weather
                  (fst (step gateway weather s (Delete from_user reminder_id))) later)) =
      deliveries reminder_id (snd (run gateway weather s later))) /\
  (forall r,
      find (fun x => id x =? reminder_id) (table s) = Some r ->
      user_id r = from_user ->
      forall x,
        In x (table (fst (step gateway weather s (Delete from_user reminder_id)))) ->
        id x <> reminder_id).
Proof.
  assert (Ht : tasks (fst (step gateway weather s (Delete from_user reminder_id)))
               = tasks s).
  { cbn [step]. now destruct (delete_reminder (table s) from_user reminder_id). }
  split; [exact Ht|split].
  - intros later. now apply run_same_tasks.
  - intros r Hf Hu x. cbn [step]. unfold delete_reminder. rewrite Hf.
    apply Z.eqb_eq in Hu. rewrite Hu. cbn.
    intros Hin%filter_In. destruct Hin as [_ Hne].
    now apply negb_true_iff, Z.eqb_neq in Hne.
Qed.

End EventLoopFacts.

(** C5, as the claim has it, fails: "Take pills" is deleted by its owner
    while its task sleeps; the row is gone, and when the sleep is over the
    reminder is delivered all the same. *)
Lemma delete_reminder_does_not_stop_delivery :
  run quiet_gateway city_not_found (boot [pills] mar1_0900) [Tick 0%nat mar1_0900]
    = (pills_armed, [FromTask 1 (Sleep 82800000000)]) /\
  step quiet_gateway city_not_found pills_armed (Delete 42 1)
    = (mkSystem [] [Sleeping pills 82800000000], [Answer "Напоминание удалено ✅"]) /\
  deliveries 1
    (snd (run quiet_gateway city_not_found
              (fst (step quiet_gateway city_not_found pills_armed (Delete 42 1)))
              [Wake 0%nat]))
    = [send_message 42 "⏰ Напоминание: Take pills"] /\
  ~ silent_after_delete quiet_gateway city_not_found pills_armed 42 1.
Proof.
  repeat split; try reflexivity.
  intros H. specialize (H [Wake 0%nat]). vm_compute in H. discriminate H.
Qed.

(** ** Comparison and difference of datetimes *)

Module StampFacts.
Import Datetime.

Lemma sub_us_stamp (a b : datetime) : sub_us a b = stamp a - stamp b.
Proof. unfold sub_us, stamp. ring. Qed.

Lemma days_before_year_mono (y y' : Z) :
  y <= y' -> days_before_year y <= days_before_year y'.
Proof.
  intros H. unfold days_before_year. cbn zeta.
  Z.to_euclidean_division_equations. lia.
Qed.

Lemma days_before_later_year (y y' : Z) :
  y < y' ->
  days_before_year y + 365 + (if is_leap y then 1 else 0) <= days_before_year y'.
Proof.
  intros H. rewrite <- DatetimeFacts.days_before_next_year.
  apply days_before_year_mono. lia.
Qed.

Ltac month_simpl :=
  cbv [DAYS_BEFORE_MONTH DAYS_IN_MONTH andb Z.eqb Pos.eqb Z.ltb Z.compare
       Pos.compare Pos.compare_cont].

Lemma month_cases (m : Z) :
  1 <= m <= 12 ->
  m = 1 \/ m = 2 \/ m = 3 \/ m = 4 \/ m = 5 \/ m = 6 \/
  m = 7 \/ m = 8 \/ m = 9 \/ m = 10 \/ m = 11 \/ m = 12.
Proof. lia. Qed.

Lemma day_of_year_bounds (y m d : Z) :
  1 <= m <= 12 -> 1 <= d <= days_in_month y m ->
  1 <= days_before_month y m + d <= 365 + (if is_leap y then 1 else 0).
Proof.
  intros Hm%month_cases. unfold days_before_month, days_in_month.
  destruct (is_leap y);
    repeat (destruct Hm as [->|Hm]; [month_simpl; lia|]); subst; month_simpl; lia.
Qed.

Lemma days_before_later_month (y m m' : Z) :
  1 <= m -> m < m' -> m' <= 12 ->
  days_before_month y m + days_in_month y m <= days_before_month y m'.
Proof.
  intros H1 H2 H3.
  assert (Hm : 1 <= m <= 12) by lia. assert (Hm' : 1 <= m' <= 12) by lia.
  apply month_cases in Hm, Hm'. unfold days_before_month, days_in_month.
  destruct (is_leap y);
    repeat (destruct Hm as [->|Hm]);
    repeat (destruct Hm' as [->|Hm']); subst; month_simpl; lia.
Qed.

(** The ordinal of a valid date follows the order of (year, month, day). *)
Lemma date_cmp (a b : datetime) :
  valid_date a = true -> valid_date b = true ->
  lex [year a; month a; day a] [year b; month b; day b] = (toordinal a ?= toordinal b).
Proof.
  intros (Hya & Hma & Hda)%DatetimeFacts.valid_date_spec
         (Hyb & Hmb & Hdb)%DatetimeFacts.valid_date_spec.
  pose proof (day_of_year_bounds _ _ _ Hma Hda) as Ba.
  pose proof (day_of_year_bounds _ _ _ Hmb Hdb) as Bb.
  unfold toordinal, ymd2ord. cbn [lex].
  destruct (Z.compare_spec (year a) (year b)) as [Ey|Ly|Ly].
  - rewrite Ey in *.
    destruct (Z.compare_spec (month a) (month b)) as [Em|Lm|Lm].
    + rewrite Em in *.
      destruct (Z.compare_spec (day a) (day b)) as [Ed|Ld|Ld]; symmetry.
      * apply Z.compare_eq_iff. lia.
      * apply Z.compare_lt_iff. lia.
      * apply Z.compare_gt_iff. lia.
    + symmetry. apply Z.compare_lt_iff.
      pose proof (days_before_later_month (year b) (month a) (month b)). lia.
    + symmetry. apply Z.compare_gt_iff.
      pose proof (days_before_later_month (year b) (month b) (month a)). lia.
  - symmetry. apply Z.compare_lt_iff.
    pose proof (days_before_later_year _ _ Ly). lia.
  - symmetry. apply Z.compare_gt_iff.
    pose proof (days_before_later_year _ _ Ly). lia.
Qed.

Definition time_of_day (t : datetime) : Z :=
  seconds_of_day t * 1000000 + microsecond t.

Lemma valid_time_spec (t : datetime) :
  valid_time t = true ->
  0 <= hour t < 24 /\ 0 <= minute t < 60 /\ 0 <= second t < 60 /\
  0 <= microsecond t < 1000000.
Proof. unfold valid_time. rewrite !andb_true_iff. lia. Qed.

Lemma time_of_day_bounds (t : datetime) :
  valid_time t = true -> 0 <= time_of_day t < 86400000000.
Proof.
  intros H%valid_time_spec. unfold time_of_day, seconds_of_day. lia.
Qed.

Lemma time_cmp (a b : datetime) :
  valid_time a = true -> valid_time b = true ->
  lex [hour a; minute a; second a; microsecond a]
      [hour b; minute b; second b; microsecond b]
  = (time_of_day a ?= time_of_day b).
Proof.
  intros Ha%valid_time_spec Hb%valid_time_spec.
  unfold time_of_day, seconds_of_day. cbn [lex].
  destruct (Z.compare_spec (hour a) (hour b)) as [Eh|Lh|Lh];
    [rewrite Eh;
     destruct (Z.compare_spec (minute a) (minute b)) as [Em|Lm|Lm];
     [rewrite Em;
      destruct (Z.compare_spec (second a) (second b)) as [Es|Ls|Ls];
      [rewrite Es;
       destruct (Z.compare_spec (microsecond a) (microsecond b)) as [Eu|Lu|Lu]
      | | ] | | ] | | ];
    symmetry;
    first [ apply Z.compare_eq_iff; lia
          | apply Z.compare_lt_iff; lia
          | apply Z.compare_gt_iff; lia ].
Qed.

Lemma stamp_split (t : datetime) :
  stamp t = toordinal t * 86400000000 + time_of_day t.
Proof. unfold stamp, time_of_day. ring. Qed.

(** Comparing two valid datetimes is comparing their stamps. *)
Lemma cmp_stamp (a b : datetime) :
  valid a = true -> valid b = true -> cmp a b = (stamp a ?= stamp b).
Proof.
  unfold valid. intros [Hda Hta]%andb_true_iff [Hdb Htb]%andb_true_iff.
  pose proof (date_cmp a b Hda Hdb) as Hd.
  pose proof (time_cmp a b Hta Htb) as Ht.
  pose proof (time_of_day_bounds a Hta) as Ba.
  pose proof (time_of_day_bounds b Htb) as Bb.
  rewrite !stamp_split.
  unfold cmp, fields. cbn [lex] in *.
  destruct (Z.compare_spec (toordinal a) (toordinal b)) as [Eo|Lo|Lo].
  - destruct (year a ?= year b); try discriminate.
    destruct (month a ?= month b); try discriminate.
    destruct (day a ?= day b); try discriminate.
    rewrite Ht, Eo.
    destruct (Z.compare_spec (time_of_day a) (time_of_day b)); symmetry.
    + apply Z.compare_eq_iff. lia.
    + apply Z.compare_lt_iff. lia.
    + apply Z.compare_gt_iff. lia.
  - assert (toordinal a * 86400000000 + time_of_day a
            < toordinal b * 86400000000 + time_of_day b) as ->%Z.compare_lt_iff by lia.
    destruct (year a ?= year b); try discriminate; try reflexivity.
    destruct (month a ?= month b); try discriminate; try reflexivity.
    destruct (day a ?= day b); try discriminate; reflexivity.
  - assert (toordinal b * 86400000000 + time_of_day b
            < toordinal a * 86400000000 + time_of_day a) as ->%Z.compare_gt_iff by lia.
    destruct (year a ?= year b); try discriminate; try reflexivity.
    destruct (month a ?= month b); try discriminate; try reflexivity.
    destruct (day a ?= day b); try discriminate; reflexivity.
Qed.

Lemma ltb_sub_us (a b : datetime) :
  valid a = true -> valid b = true ->
  (ltb a b = true <-> 0 < sub_us b a).
Proof.
  intros Ha Hb. unfold ltb. rewrite (cmp_stamp a b Ha Hb), sub_us_stamp.
  destruct (Z.compare_spec (stamp a) (stamp b)); split; intros; try discriminate;
    try reflexivity; lia.
Qed.

Lemma leb_sub_us (a b : datetime) :
  valid a = true -> valid b = true ->
  (leb a b = true <-> 0 <= sub_us b a).
Proof.
  intros Ha Hb. unfold leb. rewrite (cmp_stamp a b Ha Hb), sub_us_stamp.
  destruct (Z.compare_spec (stamp a) (stamp b)); split; intros; try discriminate;
    try reflexivity; lia.
Qed.

(** Two valid dates with the same ordinal are the same date. *)
Lemma toordinal_inj (a b : datetime) :
  valid_date a = true -> valid_date b = true ->
  toordinal a = toordinal b -> same_date a b.
Proof.
  intros Ha Hb E. pose proof (date_cmp a b Ha Hb) as H.
  rewrite E, Z.compare_refl in H. cbn [lex] in H. unfold same_date.
  destruct (Z.compare_spec (year a) (year b)); try discriminate.
  destruct (Z.compare_spec (month a) (month b)); try discriminate.
  destruct (Z.compare_spec (day a) (day b)); try discriminate.
  auto.
Qed.

End StampFacts.

(** ** More on the scheduling loop *)

Section SchedulerMore.

Variable gateway : gateway_call -> option string.
Variable weather : string -> lookup.

Lemma advance_daily_next_day_aux (r : Reminder) :
  repeat_interval r = Some "daily" ->
  Datetime.valid (next_run r) = true ->
  Datetime.year (next_run r) < 9999 ->
  exists t,
    advance r = Ok (set_next_run r t) /\
    Datetime.sub_us t (next_run r) = 86400000000 /\
    Datetime.valid t = true /\
    Datetime.ltb (next_run r) t = true.
Proof.
  intros Ht Hv Hy. unfold advance. rewrite Ht. cbn [is_str String.eqb].
  replace ("daily" =? "daily")%string with true by reflexivity.
  unfold Datetime.valid in Hv. apply andb_true_iff in Hv as [Hd Htm].
  destruct (Datetime.add_day (next_run r)) as [t|e] eqn:E.
  - destruct (DatetimeFacts.add_day_spec _ _ Hd E) as (_ & Hs & Hvd & Hl).
    exists t. cbn [bind]. repeat split; auto.
    unfold Datetime.valid. rewrite Hvd. cbn [andb].
    unfold Datetime.add_day in E.
    destruct (_ <? _) in E; [|destruct (_ <? _) in E; [|destruct (_ <? _) in E]];
      inversion E; subst; exact Htm.
  - exfalso. unfold Datetime.add_day, Datetime.MAXYEAR in E.
    destruct (_ <? _) in E; [discriminate|].
    destruct (_ <? _) in E; [discriminate|].
    destruct (Z.ltb_spec (Datetime.year (next_run r)) 9999); [discriminate|lia].
Qed.

(** With the tag "daily" and a next run before the year 9999, lines
    464-465 succeed: only [next_run] changes, to the same time of day
    exactly 24 hours later. *)
Theorem advance_daily_next_day (r : Reminder) :
  repeat_interval r = Some "daily" ->
  Datetime.valid (next_run r) = true ->
  Datetime.year (next_run r) < 9999 ->
  exists t,
    advance r = Ok (set_next_run r t) /\
    Datetime.sub_us t (next_run r) = 86400000000 /\
    Datetime.valid t = true /\
    Datetime.ltb (next_run r) t = true.
Proof. apply advance_daily_next_day_aux. Qed.

(** With the tag "monthly", a next run before December and a day that the
    following month has, lines 466-467 succeed: the next run moves to the
    same day and time of the following month, which is later by the length
    of the current month. *)
Theorem advance_monthly_same_day (r : Reminder) :
  repeat_interval r = Some "monthly" ->
  Datetime.valid (next_run r) = true ->
  Datetime.month (next_run r) < 12 ->
  Datetime.day (next_run r)
    <= Datetime.days_in_month (Datetime.year (next_run r)) (Datetime.month (next_run r) + 1) ->
  exists t,
    advance r = Ok (set_next_run r t) /\
    Datetime.year t = Datetime.year (next_run r) /\
    Datetime.month t = Datetime.month (next_run r) + 1 /\
    Datetime.day t = Datetime.day (next_run r) /\
    Datetime.sub_us t (next_run r) =
      Datetime.days_in_month (Datetime.year (next_run r)) (Datetime.month (next_run r))
      * 86400000000 /\
    Datetime.valid t = true.
Proof.
  intros Ht Hv Hm Hday. unfold advance. rewrite Ht.
  replace (is_str (Some "monthly") "daily") with false by reflexivity.
  replace (is_str (Some "monthly") "monthly") with true by reflexivity.
  unfold Datetime.valid in Hv. apply andb_true_iff in Hv as [Hd Htm].
  pose proof (DatetimeFacts.valid_date_spec _ Hd) as (Hy & Hmo & Hdd).
  unfold Datetime.replace, Datetime.check_date_fields, Datetime.MINYEAR, Datetime.MAXYEAR.
  replace (negb ((1 <=? Datetime.year (next_run r)) && (Datetime.year (next_run r) <=? 9999)))
    with false by (symmetry; apply negb_false_iff, andb_true_iff; lia).
  replace (negb ((1 <=? Datetime.month (next_run r) + 1) && (Datetime.month (next_run r) + 1 <=? 12)))
    with false by (symmetry; apply negb_false_iff, andb_true_iff; lia).
  replace (negb ((1 <=? Datetime.day (next_run r)) &&
                 (Datetime.day (next_run r) <=?
                  Datetime.days_in_month (Datetime.year (next_run r))
                                         (Datetime.month (next_run r) + 1))))
    with false by (symmetry; apply negb_false_iff, andb_true_iff; lia).
  cbn [bind]. eexists. split; [reflexivity|]. cbn.
  repeat split; auto.
  - unfold Datetime.sub_us, Datetime.toordinal, Datetime.ymd2ord, Datetime.seconds_of_day.
    cbn. rewrite DatetimeFacts.days_before_next_month by lia. lia.
  - unfold Datetime.valid, Datetime.valid_date, Datetime.MINYEAR, Datetime.MAXYEAR.
    cbn. apply andb_true_iff. split; [|exact Htm].
    rewrite !andb_true_iff. lia.
Qed.

(** For valid datetimes the test of the loop, [delay > 0] (line 458), is
    the test of the queries, [next_run > now] (lines 119, 154 and 545). *)
Theorem delay_positive_iff_later (now : Datetime.datetime) (r : Reminder) :
  Datetime.valid now = true ->
  Datetime.valid (next_run r) = true ->
  (0 <? Datetime.sub_us (next_run r) now) = Datetime.ltb now (next_run r).
Proof.
  intros Hn Hr. pose proof (StampFacts.ltb_sub_us now (next_run r) Hn Hr) as H.
  destruct (Z.ltb_spec 0 (Datetime.sub_us (next_run r) now)) as [Hp|Hp];
    destruct (Datetime.ltb now (next_run r)); try reflexivity.
  - symmetry. now apply H.
  - assert (0 < Datetime.sub_us (next_run r) now) by now apply H. lia.
Qed.

End SchedulerMore.

Lemma advance_daily_next_day_witness :
  exists t,
    advance walk = Ok (set_next_run walk t) /\
    Datetime.sub_us t (next_run walk) = 86400000000 /\
    Datetime.valid t = true /\
    Datetime.ltb (next_run walk) t = true.
Proof.
  apply (advance_daily_next_day walk); [reflexivity | reflexivity | vm_compute; reflexivity].
Defined.

Lemma advance_monthly_same_day_witness :
  exists t,
    advance bills = Ok (set_next_run bills t) /\
    Datetime.year t = 2024 /\
    Datetime.month t = 3 /\
    Datetime.day t = 15 /\
    Datetime.sub_us t (next_run bills) = 29 * 86400000000 /\
    Datetime.valid t = true.
Proof.
  apply (advance_monthly_same_day bills);
    [reflexivity | reflexivity | vm_compute; reflexivity | vm_compute; congruence].
Defined.

Lemma delay_positive_iff_later_witness :
  (0 <? Datetime.sub_us (next_run pills) mar1_0900) = Datetime.ltb mar1_0900 (next_run pills).
Proof.
  apply (delay_positive_iff_later mar1_0900 pills); reflexivity.
Defined.

(** ** Traces of the scheduling loop *)

Section TraceFacts.

Variable gateway : gateway_call -> option string.
Variable weather : string -> lookup.

Lemma calls_app (a b : list event) : calls (a ++ b) = calls a ++ calls b.
Proof. apply flat_map_app. Qed.

Lemma sleeps_app (a b : list event) : sleeps (a ++ b) = sleeps a ++ sleeps b.
Proof. apply flat_map_app. Qed.

Lemma calls_attempt (c : gateway_call) : calls (attempt gateway c) = [c].
Proof. unfold attempt. now destruct (gateway c). Qed.

Lemma sleeps_attempt (c : gateway_call) : sleeps (attempt gateway c) = [].
Proof. unfold attempt. now destruct (gateway c). Qed.

Lemma sleeps_send_reminder (r : Reminder) : sleeps (send_reminder gateway weather r) = [].
Proof.
  unfold send_reminder.
  repeat match goal with
         | |- context [if ?b then _ else _] => destruct b
         end; auto using sleeps_attempt.
Qed.

Lemma send_reminder_calls_aux (r : Reminder) :
  (List.length (calls (send_reminder gateway weather r)) <= 1)%nat /\
  Forall (fun c => chat_of c = user_id r) (calls (send_reminder gateway weather r)).
Proof.
  unfold send_reminder.
  repeat match goal with
         | |- context [if ?b then _ else _] => destruct b
         end; rewrite ?calls_attempt; cbn; split; auto.
Qed.

(** One delivery is at most one call on the gateway, and it goes to the
    owner of the reminder. *)
Theorem send_reminder_one_call_to_owner (r : Reminder) :
  (List.length (calls (send_reminder gateway weather r)) <= 1)%nat /\
  Forall (fun c => chat_of c = user_id r) (calls (send_reminder gateway weather r)).
Proof. apply send_reminder_calls_aux. Qed.

Lemma advance_user_id (r r' : Reminder) : advance r = Ok r' -> user_id r' = user_id r.
Proof.
  unfold advance.
  destruct (is_str (repeat_interval r) "daily").
  - destruct (Datetime.add_day (next_run r)); cbn; [|discriminate]. now intros [= <-].
  - destruct (is_str (repeat_interval r) "monthly").
    + destruct (Datetime.replace _ _ _); cbn; [|discriminate]. now intros [= <-].
    + now intros [= <-].
Qed.

(** Whatever the clock, the gateway and the weather service do, a task
    calls the gateway for the owner of its reminder only, and never more
    often than it has slept: each wait is followed by one delivery at
    most. *)
Theorem schedule_reminder_calls (clock : list Datetime.datetime) (r : Reminder) :
  Forall (fun c => chat_of c = user_id r)
         (calls (fst (schedule_reminder gateway weather clock r))) /\
  (List.length (calls (fst (schedule_reminder gateway weather clock r)))
   <= List.length (sleeps (fst (schedule_reminder gateway weather clock r))))%nat.
Proof.
  revert r. induction clock as [|now clock IH]; intros r; cbn [schedule_reminder].
  - cbn. split; [constructor|lia].
  - destruct (send_reminder_calls_aux r) as [Hone Hown].
    pose proof (sleeps_send_reminder r) as Hs.
    assert (Hbase :
      Forall (fun c => chat_of c = user_id r)
             (calls (Sleep (Datetime.sub_us (next_run r) now)
                     :: send_reminder gateway weather r)) /\
      (List.length (calls (Sleep (Datetime.sub_us (next_run r) now)
                           :: send_reminder gateway weather r))
       <= List.length (sleeps (Sleep (Datetime.sub_us (next_run r) now)
                               :: send_reminder gateway weather r)))%nat).
    { change (calls (Sleep ?d :: ?l)) with (calls l).
      change (sleeps (Sleep ?d :: ?l)) with (d :: sleeps l).
      rewrite Hs. cbn. split; [exact Hown|lia]. }
    destruct (0 <? Datetime.sub_us (next_run r) now); [|cbn; split; [constructor|lia]].
    destruct (truthy_opt (repeat_interval r)); [|exact Hbase].
    destruct (advance r) as [r'|e] eqn:E; [|exact Hbase].
    specialize (IH r'). rewrite (advance_user_id _ _ E) in IH.
    destruct (schedule_reminder gateway weather clock r') as [more t].
    cbn [fst] in *. rewrite calls_app, sleeps_app, !length_app.
    destruct Hbase as [Hf Hl], IH as [IHf IHl].
    split; [apply Forall_app; auto|lia].
Qed.

(** A recurring reminder whose tag is neither "daily" nor "monthly" is
    delivered once: when the clock has reached its [next_run] at the next
    turn of the loop, the task returns and the reminder is as it was. *)
Theorem schedule_reminder_other_tag_once (now now' : Datetime.datetime)
        (clock : list Datetime.datetime) (r : Reminder) :
  truthy_opt (repeat_interval r) = true ->
  repeat_interval r <> Some "daily" ->
  repeat_interval r <> Some "monthly" ->
  0 < Datetime.sub_us (next_run r) now ->
  Datetime.sub_us (next_run r) now' <= 0 ->
  schedule_reminder gateway weather (now :: now' :: clock) r =
  (Sleep (Datetime.sub_us (next_run r) now) :: send_reminder gateway weather r,
   Returned r).
Proof.
  intros Ht Hd Hm Hlate Hdue.
  assert (Hno : forall k, repeat_interval r <> Some k -> is_str (repeat_interval r) k = false).
  { intros k Hk. unfold is_str. destruct (repeat_interval r) as [t|]; [|reflexivity].
    destruct (String.eqb_spec t k); congruence. }
  cbn [schedule_reminder].
  destruct (Z.ltb_spec 0 (Datetime.sub_us (next_run r) now)); [|lia].
  rewrite Ht. unfold advance. rewrite (Hno _ Hd), (Hno _ Hm).
  destruct (Z.ltb_spec 0 (Datetime.sub_us (next_run r) now')); [lia|].
  now rewrite app_nil_r.
Qed.

(** A daily reminder does not drift: when a delivery was late by less
    than a day, the next wait is shorter by the same amount. *)
Theorem schedule_reminder_daily_no_drift (now now' : Datetime.datetime)
        (clock : list Datetime.datetime) (r : Reminder) :
  repeat_interval r = Some "daily" ->
  Datetime.valid (next_run r) = true ->
  Datetime.year (next_run r) < 9999 ->
  0 < Datetime.sub_us (next_run r) now ->
  Datetime.sub_us now' (next_run r) < 86400000000 ->
  exists r' more t,
    advance r = Ok r' /\
    schedule_reminder gateway weather (now :: now' :: clock) r =
    (Sleep (Datetime.sub_us (next_run r) now) :: send_reminder gateway weather r
     ++ Sleep (86400000000 - Datetime.sub_us now' (next_run r))
     :: send_reminder gateway weather r' ++ more, t).
Proof.
  intros Ht Hv Hy Hfirst Hlate.
  destruct (advance_daily_next_day_aux r Ht Hv Hy) as (t' & Ha & Hs & _).
  assert (Hd : Datetime.sub_us t' now' = 86400000000 - Datetime.sub_us now' (next_run r)).
  { rewrite !StampFacts.sub_us_stamp in *. lia. }
  exists (set_next_run r t').
  cbn [schedule_reminder].
  destruct (Z.ltb_spec 0 (Datetime.sub_us (next_run r) now)); [|lia].
  replace (truthy_opt (repeat_interval r)) with true by (now rewrite Ht).
  rewrite Ha. cbn [next_run set_next_run]. rewrite Hd.
  destruct (Z.ltb_spec 0 (86400000000 - Datetime.sub_us now' (next_run r))); [|lia].
  replace (truthy_opt (repeat_interval (set_next_run r t'))) with true by (cbn; now rewrite Ht).
  destruct (advance (set_next_run r t')) as [r''|e].
  - destruct (schedule_reminder gateway weather clock r'') as [more t].
    exists more, t. split; reflexivity.
  - exists [], (Raised e (set_next_run r t')). split; [reflexivity|].
    now rewrite app_nil_r.
Qed.

(** What a task does besides calling the gateway does not depend on the
    gateway or on the weather service: with other answers from them it
    sleeps the same times and ends in the same state. *)
Theorem schedule_reminder_contains_failures
        (gateway' : gateway_call -> option string) (weather' : string -> lookup)
        (clock : list Datetime.datetime) (r : Reminder) :
  snd (schedule_reminder gateway weather clock r)
    = snd (schedule_reminder gateway' weather' clock r) /\
  sleeps (fst (schedule_reminder gateway weather clock r))
    = sleeps (fst (schedule_reminder gateway' weather' clock r)).
Proof.
  revert r. induction clock as [|now clock IH]; intros r; cbn [schedule_reminder].
  - auto.
  - destruct (0 <? Datetime.sub_us (next_run r) now); [|auto].
    assert (Hs : forall g w,
               sleeps (Sleep (Datetime.sub_us (next_run r) now) :: send_reminder g w r)
               = [Datetime.sub_us (next_run r) now]).
    { intros g w. change (sleeps (Sleep ?d :: ?l)) with (d :: sleeps l).
      unfold send_reminder, attempt.
      repeat match goal with
             | |- context [if ?b then _ else _] => destruct b
             | |- context [match ?b with Some _ => _ | None => _ end] => destruct b
             end; reflexivity. }
    destruct (truthy_opt (repeat_interval r)); [|cbn [fst snd]; now rewrite !Hs].
    destruct (advance r) as [r'|e]; [|cbn [fst snd]; now rewrite !Hs].
    specialize (IH r').
    destruct (schedule_reminder gateway weather clock r') as [m1 t1],
             (schedule_reminder gateway' weather' clock r') as [m2 t2].
    cbn [fst snd] in *. destruct IH as [-> Hm].
    split; [reflexivity|].
    rewrite !sleeps_app, !Hs. now rewrite Hm.
Qed.

End TraceFacts.

(** ** Numbers in callback data *)

Module PyConvFacts.
Import PyConv.

Lemma all_chars_impl (p q : ascii -> bool) (s : string) :
  (forall c, p c = true -> q c = true) ->
  all_chars p s = true -> all_chars q s = true.
Proof.
  intros Hpq. induction s as [|c s IH]; cbn; [reflexivity|].
  rewrite !andb_true_iff. intros [Hc Hs]. auto.
Qed.

Lemma numeric_uint (d : Decimal.uint) :
  all_chars is_numeric (DecimalString.NilEmpty.string_of_uint d) = true.
Proof. induction d; cbn; auto. Qed.

Lemma numeric_nilzero_uint (d : Decimal.uint) :
  all_chars is_numeric (DecimalString.NilZero.string_of_uint d) = true.
Proof.
  destruct d; try reflexivity;
    unfold DecimalString.NilZero.string_of_uint; apply numeric_uint.
Qed.

Lemma numeric_str (n : Z) : all_chars is_numeric (str n) = true.
Proof.
  unfold str, DecimalString.NilZero.string_of_int.
  destruct (Z.to_int n) as [d|d]; [apply numeric_nilzero_uint|].
  cbn [all_chars]. now rewrite numeric_nilzero_uint.
Qed.

Lemma split_without_sep (sep : ascii) (s : string) :
  all_chars (fun c => negb (Ascii.eqb c sep)) s = true -> split sep s = [s].
Proof.
  induction s as [|c s IH]; cbn; [reflexivity|].
  rewrite andb_true_iff. intros [Hc Hs].
  apply negb_true_iff in Hc. rewrite Hc, (IH Hs). reflexivity.
Qed.

Lemma rstrip_without_space (s : string) :
  all_chars (fun c => negb (PyStr.is_space c)) s = true -> PyStr.rstrip s = s.
Proof.
  induction s as [|c s IH]; cbn; [reflexivity|].
  rewrite andb_true_iff. intros [Hc Hs].
  apply negb_true_iff in Hc. rewrite (IH Hs), Hc. now destruct s.
Qed.

Lemma strip_without_space (s : string) :
  all_chars (fun c => negb (PyStr.is_space c)) s = true -> PyStr.strip s = s.
Proof.
  intros H. unfold PyStr.strip.
  assert (PyStr.lstrip s = s) as ->.
  { destruct s as [|c s]; cbn in *; [reflexivity|].
    apply andb_true_iff in H as [Hc _]. apply negb_true_iff in Hc. now rewrite Hc. }
  now apply rstrip_without_space.
Qed.

Lemma numeric_not_space (c : ascii) :
  is_numeric c = true -> negb (PyStr.is_space c) = true.
Proof.
  unfold is_numeric, PyStr.is_space. cbn zeta.
  generalize (nat_of_ascii c) as n. intros n.
  rewrite negb_true_iff, !orb_true_iff, !andb_true_iff, !orb_false_iff, !andb_false_iff,
    !Nat.eqb_eq, !Nat.eqb_neq, !Nat.leb_le, !Nat.leb_gt. lia.
Qed.

Lemma numeric_not_underscore (c : ascii) :
  is_numeric c = true -> negb (Ascii.eqb c "_") = true.
Proof.
  intros H. apply negb_true_iff, Ascii.eqb_neq. intros ->. discriminate H.
Qed.

Lemma to_int_proper (n : Z) :
  Z.to_int n <> Decimal.Pos Decimal.Nil /\ Z.to_int n <> Decimal.Neg Decimal.Nil.
Proof.
  destruct n as [|p|p]; cbn; split; try discriminate;
    intros [= H]; now apply (DecimalPos.Unsigned.to_uint_nonnil p).
Qed.

(** [int(str(n)) == n] *)
Lemma int_str (n : Z) : int (str n) = Some n.
Proof.
  unfold int.
  rewrite strip_without_space
    by (apply (all_chars_impl is_numeric); [apply numeric_not_space|apply numeric_str]).
  pose proof (numeric_str n) as Hn.
  destruct (to_int_proper n) as [Hp Hm].
  pose proof (DecimalString.NilZero.isi (Z.to_int n) Hp Hm) as Hisi.
  fold (str n) in Hisi.
  destruct (str n) as [|c t] eqn:E; [discriminate Hisi|].
  cbn in Hn. apply andb_true_iff in Hn as [Hc _].
  destruct (Ascii.eqb_spec c "+") as [->|_]; [discriminate Hc|].
  rewrite Hisi. cbn. now rewrite DecimalZ.of_to.
Qed.

Lemma split_str (n : Z) : split "_" (str n) = [str n].
Proof.
  apply split_without_sep.
  apply (all_chars_impl is_numeric); [apply numeric_not_underscore|apply numeric_str].
Qed.

End PyConvFacts.

(** ** The table and its key *)

Section TableFacts.

Lemma row_by_key (rows : list Reminder) (a b : Reminder) :
  NoDup (map id rows) -> In a rows -> In b rows -> id a = id b -> a = b.
Proof.
  induction rows as [|x rows IH]; cbn; [tauto|].
  intros Hnd Ha Hb E. apply NoDup_cons_iff in Hnd as [Hx Hnd].
  destruct Ha as [->|Ha], Hb as [->|Hb]; auto.
  - exfalso. apply Hx. rewrite E. now apply in_map.
  - exfalso. apply Hx. rewrite <- E. now apply in_map.
Qed.

Lemma find_by_id (rows : list Reminder) (r : Reminder) :
  NoDup (map id rows) -> In r rows ->
  find (fun x => id x =? id r) rows = Some r.
Proof.
  intros Hnd Hin.
  destruct (find (fun x => id x =? id r) rows) as [x|] eqn:E.
  - apply find_some in E as [Hx Hid]. apply Z.eqb_eq in Hid.
    f_equal. now apply (row_by_key rows).
  - apply (find_none _ _ E) in Hin. now rewrite Z.eqb_refl in Hin.
Qed.

Lemma filter_other_ids_key (rows : list Reminder) (i : Z) :
  NoDup (map id rows) ->
  NoDup (map id (filter (fun x => negb (id x =? i)) rows)).
Proof.
  induction rows as [|x rows IH]; cbn; [auto|].
  intros Hnd. apply NoDup_cons_iff in Hnd as [Hx Hnd].
  destruct (negb (id x =? i)); cbn; auto.
  constructor; auto. intros Hin. apply Hx.
  apply in_map_iff in Hin as (y & Hy & Hin). apply filter_In in Hin as [Hin _].
  rewrite <- Hy. now apply in_map.
Qed.

Lemma filter_other_ids_perm (rows : list Reminder) (r : Reminder) :
  NoDup (map id rows) -> In r rows ->
  Permutation rows (r :: filter (fun x => negb (id x =? id r)) rows).
Proof.
  induction rows as [|x rows IH]; cbn; [tauto|].
  intros Hnd Hin. apply NoDup_cons_iff in Hnd as [Hx Hnd].
  destruct Hin as [->|Hin].
  - rewrite Z.eqb_refl. cbn. constructor.
    assert (filter (fun x => negb (id x =? id r)) rows = rows) as ->; [|reflexivity].
    apply forallb_filter_id, forallb_forall. intros y Hy.
    apply negb_true_iff, Z.eqb_neq. intros E. apply Hx. rewrite <- E. now apply in_map.
  - destruct (Z.eqb_spec (id x) (id r)) as [E|Hne]; cbn.
    + exfalso. apply Hx. rewrite E. now apply in_map.
    + rewrite (IH Hnd Hin) at 1. apply perm_swap.
Qed.

(** With the ids being a key of the table, [delete_reminder] never
    removes a row of another user, whatever id the callback names. *)
Theorem delete_reminder_spares_other_users (rows : list Reminder)
        (from_user reminder_id : Z) (r : Reminder) :
  NoDup (map id rows) ->
  In r rows ->
  user_id r <> from_user ->
  In r (fst (delete_reminder rows from_user reminder_id)).
Proof.
  intros Hnd Hin Hu. unfold delete_reminder.
  destruct (find (fun x => id x =? reminder_id) rows) as [x|] eqn:E; [|exact Hin].
  destruct (Z.eqb_spec (user_id x) from_user) as [Ex|_]; [|exact Hin].
  cbn. apply filter_In. split; [exact Hin|].
  apply negb_true_iff, Z.eqb_neq. intros Er.
  apply find_some in E as [Hx Hid]. apply Z.eqb_eq in Hid.
  assert (r = x) by (apply (row_by_key rows); congruence). congruence.
Qed.

(** With the ids being a key of the table, the owner's deletion of a row
    removes this row and no other: the table is the row and what is left,
    the rows left keep their order, and the ids are still a key. *)
Theorem delete_reminder_removes_own_row (rows : list Reminder) (r : Reminder) :
  NoDup (map id rows) ->
  In r rows ->
  snd (delete_reminder rows (user_id r) (id r)) = "Напоминание удалено ✅" /\
  Permutation rows (r :: fst (delete_reminder rows (user_id r) (id r))) /\
  (forall x, In x (fst (delete_reminder rows (user_id r) (id r))) <-> In x rows /\ x <> r) /\
  NoDup (map id (fst (delete_reminder rows (user_id r) (id r)))).
Proof.
  intros Hnd Hin. unfold delete_reminder.
  rewrite (find_by_id rows r Hnd Hin), Z.eqb_refl. cbn [fst snd].
  split; [reflexivity|]. split; [now apply filter_other_ids_perm|].
  split; [|now apply filter_other_ids_key].
  intros x. rewrite filter_In, negb_true_iff, Z.eqb_neq. split.
  - intros [Hx Hne]. split; [exact Hx|]. intros ->. now apply Hne.
  - intros [Hx Hne]. split; [exact Hx|]. intros E. apply Hne.
    now apply (row_by_key rows).
Qed.


Lemma callback_id_of_button_aux (n : Z) :
  callback_id (cat ["delete_"; PyConv.str n]) = inr n /\
  callback_id (cat ["edit_"; PyConv.str n]) = inr n.
Proof.
  unfold callback_id, cat. cbn [String.concat].
  split; cbn [String.append PyConv.split Ascii.eqb Bool.eqb];
    rewrite PyConvFacts.split_str; cbn [nth_error];
    now rewrite PyConvFacts.int_str.
Qed.

(** The id put into the data of a button is the id read from it. *)
Theorem callback_id_of_button (n : Z) :
  callback_id (cat ["delete_"; PyConv.str n]) = inr n /\
  callback_id (cat ["edit_"; PyConv.str n]) = inr n.
Proof. apply callback_id_of_button_aux. Qed.

(** [edit_reminder] lets a user edit a row only when the row is there and
    is the user's own. *)
Theorem edit_reminder_only_own_rows (rows : list Reminder) (from_user : Z)
        (data : string) (edit_id : Z) :
  edit_reminder rows from_user data = inr (Some edit_id) ->
  exists r, In r rows /\ id r = edit_id /\ user_id r = from_user.
Proof.
  unfold edit_reminder. destruct (callback_id data) as [e|i]; [discriminate|].
  destruct (find (fun r => id r =? i) rows) as [r|] eqn:E; [|discriminate].
  destruct (Z.eqb_spec (user_id r) from_user) as [Eu|_]; [|discriminate].
  intros [= <-]. apply find_some in E as [Hr Hid]. apply Z.eqb_eq in Hid.
  now exists r.
Qed.

(** With the ids being a key of the table, the keyboard under the list of
    a user's active reminders has one row of two buttons for each of them,
    in the order of the list; pressed by this user, the first button
    deletes this reminder and the second starts the editing of it. *)
Theorem keyboard_acts_on_listed_rows (rows : list Reminder) (from_user : Z)
        (now : Datetime.datetime) :
  NoDup (map id rows) ->
  Forall2 (fun r row =>
             In r rows /\ user_id r = from_user /\
             exists del edit,
               row = [del; edit] /\
               delete_callback rows from_user (callback_data del)
                 = inr (filter (fun x => negb (id x =? id r)) rows,
                        "Напоминание удалено ✅") /\
               edit_reminder rows from_user (callback_data edit) = inr (Some (id r)))
          (show_reminders rows from_user now)
          (create_reminders_keyboard (show_reminders rows from_user now)).
Proof.
  intros Hnd.
  assert (Hall : Forall (fun r => In r rows /\ user_id r = from_user)
                        (show_reminders rows from_user now)).
  { apply Forall_forall. intros r Hr. unfold show_reminders in Hr.
    apply (Permutation_in _ (order_by_next_run_perm _)) in Hr.
    apply filter_In in Hr as [Hin Hact]. apply is_active_spec in Hact. tauto. }
  unfold create_reminders_keyboard.
  induction Hall as [|r l [Hin Hu] _ IH]; cbn [map]; constructor; [|exact IH].
  split; [exact Hin|]. split; [exact Hu|].
  eexists _, _. split; [reflexivity|].
  destruct (callback_id_of_button_aux (id r)) as [Hd He].
  unfold delete_callback, edit_reminder. cbn [callback_data].
  rewrite Hd, He. unfold delete_reminder.
  rewrite (find_by_id rows r Hnd Hin), Hu, Z.eqb_refl. auto.
Qed.

End TableFacts.

(** ** Today's list *)

Section TodayFacts.

Lemma midnight_valid (t : Datetime.datetime) :
  Datetime.valid t = true -> Datetime.valid (midnight t) = true.
Proof.
  unfold Datetime.valid. intros [Hd _]%andb_true_iff.
  apply andb_true_iff. split; [exact Hd|reflexivity].
Qed.

Lemma stamp_midnight (t : Datetime.datetime) :
  stamp (midnight t) = Datetime.toordinal t * 86400000000.
Proof. unfold stamp, midnight, Datetime.toordinal, Datetime.seconds_of_day. cbn. ring. Qed.

Lemma same_date_toordinal (a b : Datetime.datetime) :
  same_date a b -> Datetime.toordinal a = Datetime.toordinal b.
Proof. unfold same_date, Datetime.toordinal. intros (-> & -> & ->). reflexivity. Qed.

(** The day's window of lines 147-148 holds exactly the valid datetimes
    of that date. *)
Lemma in_day_window (t nr today_end : Datetime.datetime) :
  Datetime.valid t = true -> Datetime.valid nr = true ->
  Datetime.add_day (midnight t) = Ok today_end ->
  (Datetime.leb (midnight t) nr && Datetime.ltb nr today_end = true <-> same_date nr t).
Proof.
  intros Ht Hnr E.
  pose proof (midnight_valid t Ht) as Hm.
  assert (Hmd : Datetime.valid_date (midnight t) = true)
    by (unfold Datetime.valid in Hm; now apply andb_true_iff in Hm).
  destruct (DatetimeFacts.add_day_spec _ _ Hmd E) as (_ & Hs & Hvd & _).
  assert (He : Datetime.valid today_end = true).
  { unfold Datetime.valid. rewrite Hvd. cbn [andb].
    unfold Datetime.add_day in E.
    destruct (_ <? _) in E; [|destruct (_ <? _) in E; [|destruct (_ <? _) in E]];
      inversion E; subst; reflexivity. }
  rewrite andb_true_iff, (StampFacts.leb_sub_us _ _ Hm Hnr),
    (StampFacts.ltb_sub_us _ _ Hnr He).
  rewrite !StampFacts.sub_us_stamp in *. rewrite stamp_midnight in *.
  rewrite (StampFacts.stamp_split nr).
  assert (Hnt : Datetime.valid_time nr = true)
    by (unfold Datetime.valid in Hnr; now apply andb_true_iff in Hnr).
  pose proof (StampFacts.time_of_day_bounds nr Hnt) as Hb.
  split.
  - intros [H1 H2].
    assert (Datetime.toordinal nr = Datetime.toordinal t) as Ho by lia.
    apply StampFacts.toordinal_inj; [| exact Hmd | exact Ho].
    unfold Datetime.valid in Hnr. now apply andb_true_iff in Hnr.
  - intros Ho%same_date_toordinal. lia.
Qed.

(** The list for today holds exactly the asking user's reminders whose
    next run is on the date of line 147 and after the time of line 146.
    (On the last day of the year 9999 line 148 raises instead.) *)
Theorem show_today_reminders_same_date (rows : list Reminder) (from_user : Z)
        (now now' : Datetime.datetime) :
  Datetime.valid now' = true ->
  Datetime.year now' < 9999 ->
  (forall r, In r rows -> Datetime.valid (next_run r) = true) ->
  exists listed,
    show_today_reminders rows from_user now now' = Ok listed /\
    forall r, In r listed <->
              In r rows /\ user_id r = from_user /\
              same_date (next_run r) now' /\
              Datetime.ltb now (next_run r) = true.
Proof.
  intros Hv Hy Hrows. unfold show_today_reminders. cbn zeta.
  destruct (Datetime.add_day (midnight now')) as [today_end|e] eqn:E.
  - cbn [bind]. eexists. split; [reflexivity|].
    intros r. rewrite filter_In. split.
    + intros [Hin Hp]. rewrite !andb_true_iff in Hp.
      destruct Hp as [[[Hu Hl] Hlt] Hnow].
      split; [exact Hin|]. split; [now apply Z.eqb_eq|]. split; [|exact Hnow].
      apply (in_day_window now' (next_run r) today_end Hv (Hrows r Hin) E).
      now rewrite Hl, Hlt.
    + intros (Hin & Hu & Hd & Hnow). split; [exact Hin|].
      apply (in_day_window now' (next_run r) today_end Hv (Hrows r Hin) E) in Hd.
      apply andb_true_iff in Hd as [Hl Hlt].
      rewrite Hl, Hlt, Hnow. apply Z.eqb_eq in Hu. now rewrite Hu.
  - exfalso. unfold Datetime.add_day, Datetime.MAXYEAR in E. cbn in E.
    destruct (_ <? _) in E; [discriminate|].
    destruct (_ <? _) in E; [discriminate|].
    destruct (Z.ltb_spec (Datetime.year now') 9999); [discriminate|lia].
Qed.

(** Every reminder of today's list is in the list of active reminders
    asked for at the same time. *)
Theorem show_today_reminders_are_active (rows listed : list Reminder) (from_user : Z)
        (now now' : Datetime.datetime) (r : Reminder) :
  show_today_reminders rows from_user now now' = Ok listed ->
  In r listed ->
  In r (show_reminders rows from_user now).
Proof.
  unfold show_today_reminders. cbn zeta.
  destruct (Datetime.add_day (midnight now')) as [today_end|e]; [|discriminate].
  cbn [bind]. intros [= <-] Hin. apply filter_In in Hin as [Hin Hp].
  rewrite !andb_true_iff in Hp. destruct Hp as [[[Hu _] _] Hnow].
  unfold show_reminders.
  apply (Permutation_in _ (Permutation_sym (order_by_next_run_perm _))).
  apply filter_In. split; [exact Hin|]. unfold is_active. now rewrite Hu, Hnow.
Qed.

End TodayFacts.

(** ** Creating reminders *)

Section CreationFacts.

Variable gateway : gateway_call -> option string.
Variable weather : string -> lookup.
Variable parse : string -> Datetime.datetime -> option Datetime.datetime.
Variable strftime : string -> Datetime.datetime -> string.

Lemma startswith_contains (p s : string) :
  PyStr.startswith p s = true -> PyStr.contains p s = true.
Proof. destruct s; cbn; intros ->; reflexivity. Qed.

(** A city is taken for a weather reminder only when the lookup made for
    it succeeded: after a failed lookup the handler answers with the text
    of [get_weather] and keeps waiting for a city. *)
Theorem process_weather_city_checks_lookup (text : option string) :
  (lookup_failed (weather (fmt text)) = true ->
   process_weather_city weather text = CityRejected (get_weather weather (fmt text))) /\
  (forall c b,
      process_weather_city weather text = CityAccepted c b ->
      c = text /\ b = true /\ lookup_failed (weather (fmt text)) = false).
Proof.
  unfold process_weather_city. cbn zeta. split.
  - intros Hf. now rewrite (startswith_contains _ _ (get_weather_failure weather _ Hf)).
  - intros c b.
    destruct (lookup_failed (weather (fmt text))) eqn:Hf.
    + rewrite (startswith_contains _ _ (get_weather_failure weather _ Hf)). discriminate.
    + destruct (PyStr.contains _ _); [discriminate|]. intros [= <- <-]. auto.
Qed.

(** A reminder that is not a weather reminder and carries what
    [process_file] took from a message, with a file id that is not empty,
    is delivered by one call: [send_document] for a document, else
    [send_photo] with the last size of a photo, else [send_audio], with the
    name of the reminder as the caption. *)
Theorem attachment_is_sent_by_kind (message : attachment_message) (r : Reminder) :
  is_weather r = false ->
  process_file message = (file_id r, file_type r) ->
  truthy_opt (file_id r) = true ->
  calls (send_reminder gateway weather r) =
  [match document message with
   | Some f => send_document (user_id r) f (cat ["⏰ Напоминание: "; name r])
   | None =>
       match photo message with
       | _ :: _ => send_photo (user_id r) (last (photo message) EmptyString)
                              (cat ["⏰ Напоминание: "; name r])
       | [] => send_audio (user_id r) (fmt (audio message))
                          (cat ["⏰ Напоминание: "; name r])
       end
   end].
Proof.
  intros Hw Hp Ht. unfold send_reminder. rewrite Hw, Ht.
  unfold process_file in Hp.
  destruct (document message) as [f|].
  - injection Hp as <- <-. cbn [is_str]. 
    replace ("document" =? "photo")%string with false by reflexivity.
    replace ("document" =? "document")%string with true by reflexivity.
    apply calls_attempt.
  - destruct (photo message) as [|x l] eqn:Eph.
    + destruct (audio message) as [f|].
      * injection Hp as <- <-. cbn [is_str].
        replace ("audio" =? "photo")%string with false by reflexivity.
        replace ("audio" =? "document")%string with false by reflexivity.
        replace ("audio" =? "audio")%string with true by reflexivity.
        apply calls_attempt.
      * injection Hp as Hf _. rewrite <- Hf in Ht. discriminate Ht.
    + injection Hp as <- <-. cbn [is_str].
      replace ("photo" =? "photo")%string with true by reflexivity.
      apply calls_attempt.
Qed.

(** When the data hold a time and a next run and the new id is not in
    the table, [save_and_schedule] adds one row at the end of the table,
    with this id, the user, the time, the next run, the repeat tag and the
    attachment it was given, and the ids stay a key.  A task for the row is
    created only when the confirmation was sent; when sending it raises,
    the row is in the table and no task waits for it. *)
Theorem save_and_schedule_stores_row (s : system) (new_id uid : Z) (data : fsm_data)
        (fid ftype : option string) (t nr : Datetime.datetime) :
  data_time data = Some t ->
  data_next_run data = Some nr ->
  NoDup (map id (table s)) ->
  ~ In new_id (map id (table s)) ->
  exists row s',
    table s' = table s ++ [row] /\
    id row = new_id /\ user_id row = uid /\ time row = t /\ next_run row = nr /\
    repeat_interval row = data_repeat_interval data /\
    file_id row = fid /\ file_type row = ftype /\
    NoDup (map id (table s')) /\
    ((exists c,
         save_and_schedule gateway strftime s new_id uid data fid ftype = Saved s' c /\
         gateway c = None /\ chat_of c = uid /\
         tasks s' = tasks s ++ [Ready row]) \/
     (exists msg,
         save_and_schedule gateway strftime s new_id uid data fid ftype = SendFailed s' msg /\
         tasks s' = tasks s)).
Proof using gateway strftime.
  intros Ht Hn Hnd Hfresh. unfold save_and_schedule. rewrite Ht, Hn. cbn zeta.
  set (row := mkReminder new_id uid _ t _ _ _ fid ftype nr).
  set (text := cat _).
  assert (Hkey : NoDup (map id (table s ++ [row]))).
  { rewrite map_app. cbn. apply NoDup_app; [exact Hnd|constructor; [intros []|constructor]|].
    intros x Hx [<-|[]]. exact (Hfresh Hx). }
  destruct (gateway (send_message uid text)) as [msg|] eqn:Eg.
  - exists row, (mkSystem (table s ++ [row]) (tasks s)).
    cbn. repeat split; auto. right. exists msg. auto.
  - exists row, (mkSystem (table s ++ [row]) (tasks s ++ [Ready row])).
    cbn. repeat split; auto. left. exists (send_message uid text). auto.
Qed.

(** A reminder made from what [process_time] resolved is in its owner's
    list of active reminders at every later time, due or not: the repeat
    tag that [process_time] hands on is never [None]. *)
Theorem created_reminder_stays_listed (s s' : system) (new_id uid : Z) (text : string)
        (base now0 : Datetime.datetime) (nm : option string) (isw : option bool)
        (cty fid ftype : option string) (t nr : Datetime.datetime) (rep : option string)
        (c : gateway_call) :
  process_time parse text base now0 = Ok (Resolved t rep nr) ->
  save_and_schedule gateway strftime s new_id uid (mkData nm (Some t) rep isw cty (Some nr))
                    fid ftype = Saved s' c ->
  forall now, exists row,
      id row = new_id /\ next_run row = nr /\ In row (show_reminders (table s') uid now).
Proof.
  intros Hp Hs now. rewrite process_time_any in Hp.
  destruct (parse _ base) as [t0|]; [|discriminate]. injection Hp as <- <- <-.
  unfold save_and_schedule in Hs. cbn in Hs.
  destruct (gateway _); [discriminate|]. injection Hs as <- _.
  eexists. split; [|split]; [| |unfold show_reminders;
    apply (Permutation_in _ (Permutation_sym (order_by_next_run_perm _)));
    apply filter_In; split; [cbn; apply in_or_app; right; left; reflexivity|]].
  - reflexivity.
  - reflexivity.
  - unfold is_active. cbn. rewrite Z.eqb_refl. now rewrite orb_true_r.
Qed.

End CreationFacts.

(** ** Editing reminders *)

Section EditFacts.

Variable gateway : gateway_call -> option string.
Variable weather : string -> lookup.
Variable parse : string -> Datetime.datetime -> option Datetime.datetime.

Lemma map_set_time_frame (rows : list Reminder) (edit_id : Z) (t : Datetime.datetime) :
  let rows' := map (fun r => if id r =? edit_id then set_time r t else r) rows in
  map id rows' = map id rows /\
  map user_id rows' = map user_id rows /\
  map name rows' = map name rows /\
  map repeat_interval rows' = map repeat_interval rows.
Proof.
  cbn zeta. rewrite !map_map.
  repeat split; apply map_ext; intros r; destruct (id r =? edit_id); reflexivity.
Qed.

(** When [process_edit_time] does not fail, the table has the same rows
    by id, owner, name and repeat tag, in the same order; every row with
    another id is as it was; and either nothing changed at all, or a time
    was parsed and both [time] and [next_run] of the edited row are this
    time, whoever owns the row and however the reminder repeats. *)
Theorem process_edit_time_frame (rows rows' listed : list Reminder)
        (from_user edit_id : Z) (text : string) (base now : Datetime.datetime) :
  process_edit_time parse rows from_user edit_id text base now = Edited rows' listed ->
  map id rows' = map id rows /\
  map user_id rows' = map user_id rows /\
  map name rows' = map name rows /\
  map repeat_interval rows' = map repeat_interval rows /\
  (forall r, In r rows -> id r <> edit_id -> In r rows') /\
  (rows' = rows \/
   exists t, parse text base = Some t /\
             forall r', In r' rows' -> id r' = edit_id -> time r' = t /\ next_run r' = t).
Proof.
  unfold process_edit_time. cbn zeta.
  destruct (negb (text =? "/skip")%string).
  - destruct (parse text base) as [t|] eqn:Ep.
    + destruct (find (fun r => id r =? edit_id) rows); [|discriminate].
      intros [= <- _].
      destruct (map_set_time_frame rows edit_id t) as (H1 & H2 & H3 & H4).
      repeat split; auto.
      * intros y Hin Hne. apply in_map_iff. exists y. split; [|exact Hin].
        apply Z.eqb_neq in Hne. now rewrite Hne.
      * right. exists t. split; [reflexivity|].
        intros r' Hin Hid. apply in_map_iff in Hin as (x & <- & _).
        destruct (Z.eqb_spec (id x) edit_id); [cbn; auto|contradiction].
    + intros [= <- _]. repeat split; auto.
  - intros [= <- _]. repeat split; auto.
Qed.


(** Renaming touches the name of the row to edit and nothing else. *)
Theorem process_edit_frame (rows : list Reminder) (edit_id : Z) (text : string) :
  map id (process_edit rows edit_id text) = map id rows /\
  map next_run (process_edit rows edit_id text) = map next_run rows /\
  map user_id (process_edit rows edit_id text) = map user_id rows /\
  (forall r, In r rows -> id r <> edit_id -> In r (process_edit rows edit_id text)) /\
  (text <> "/skip" ->
   forall r', In r' (process_edit rows edit_id text) -> id r' = edit_id -> name r' = text).
Proof.
  unfold process_edit.
  destruct (String.eqb_spec text "/skip") as [->|Hne]; cbn [negb].
  - repeat split; auto. intros H. now destruct H.
  - rewrite !map_map. repeat split.
    1-3: apply map_ext; intros r; destruct (id r =? edit_id); reflexivity.
    + intros r Hin Hid. apply in_map_iff. exists r. split; [|exact Hin].
      apply Z.eqb_neq in Hid. now rewrite Hid.
    + intros _ r' Hin Hid. apply in_map_iff in Hin as (r & <- & _).
      destruct (Z.eqb_spec (id r) edit_id); [reflexivity|contradiction].
Qed.


End EditFacts.

(** ** Recovery and the loop *)

Section RecoveryMore.

Variable gateway : gateway_call -> option string.
Variable weather : string -> lookup.

(** With valid datetimes, every task that [main] creates belongs to a
    reminder that its owner's list of active reminders shows, and a task
    that reaches the head of its loop at the time of the query goes to
    sleep for the time left until [next_run]: recovery arms nothing that
    the loop would drop at once. *)
Theorem recovered_task_sleeps (rows : list Reminder) (now : Datetime.datetime)
        (k : nat) (t : task) :
  Datetime.valid now = true ->
  (forall r, In r rows -> Datetime.valid (next_run r) = true) ->
  nth_error (main rows now) k = Some t ->
  exists r,
    t = Ready r /\
    In r (show_reminders rows (user_id r) now) /\
    0 < Datetime.sub_us (next_run r) now /\
    step gateway weather (boot rows now) (Tick k now) =
    (mkSystem rows (update (main rows now) k
                           (Sleeping r (Datetime.sub_us (next_run r) now))),
     [FromTask (id r) (Sleep (Datetime.sub_us (next_run r) now))]).
Proof.
  intros Hv Hrows Hk.
  pose proof (nth_error_In _ _ Hk) as Hin. unfold main in Hin.
  apply in_map_iff in Hin as (r & <- & Hr). apply filter_In in Hr as [Hr Hlt].
  exists r. split; [reflexivity|].
  assert (Hpos : 0 < Datetime.sub_us (next_run r) now)
    by now apply (StampFacts.ltb_sub_us now (next_run r) Hv (Hrows r Hr)).
  split; [|split; [exact Hpos|]].
  - unfold show_reminders.
    apply (Permutation_in _ (Permutation_sym (order_by_next_run_perm _))).
    apply filter_In. split; [exact Hr|]. unfold is_active.
    now rewrite Z.eqb_refl, Hlt.
  - cbn [step boot tasks table]. rewrite Hk. unfold loop_head.
    destruct (Z.ltb_spec 0 (Datetime.sub_us (next_run r) now)); [reflexivity|lia].
Qed.

End RecoveryMore.

(** ** The properties at sample inputs *)

Lemma schedule_reminder_other_tag_once_witness :
  schedule_reminder quiet_gateway city_not_found [mar1_0900; mar2_0800] pills =
  (Sleep (Datetime.sub_us (next_run pills) mar1_0900)
   :: send_reminder quiet_gateway city_not_found pills,
   Returned pills).
Proof.
  apply (schedule_reminder_other_tag_once quiet_gateway city_not_found
           mar1_0900 mar2_0800 [] pills);
    [reflexivity | discriminate | discriminate | reflexivity | vm_compute; congruence].
Defined.

Lemma schedule_reminder_daily_no_drift_witness :
  exists r' more t,
    advance walk = Ok r' /\
    schedule_reminder quiet_gateway city_not_found
      [at_time 2024 2 27 9 0; Datetime.mk 2024 2 28 8 0 2 0] walk =
    (Sleep (Datetime.sub_us (next_run walk) (at_time 2024 2 27 9 0))
     :: send_reminder quiet_gateway city_not_found walk
     ++ Sleep (86400000000 - Datetime.sub_us (Datetime.mk 2024 2 28 8 0 2 0) (next_run walk))
     :: send_reminder quiet_gateway city_not_found r' ++ more, t).
Proof.
  apply (schedule_reminder_daily_no_drift quiet_gateway city_not_found
           (at_time 2024 2 27 9 0) (Datetime.mk 2024 2 28 8 0 2 0) [] walk);
    reflexivity.
Defined.

Lemma delete_reminder_spares_other_users_witness :
  In theirs (fst (delete_reminder [pills; theirs] 42 9)).
Proof.
  apply (delete_reminder_spares_other_users [pills; theirs] 42 9 theirs).
  - cbn. repeat constructor; cbn; intuition discriminate.
  - cbn. tauto.
  - cbn. discriminate.
Defined.

Lemma delete_reminder_removes_own_row_witness :
  snd (delete_reminder [pills; theirs] (user_id pills) (id pills))
    = "Напоминание удалено ✅" /\
  Permutation [pills; theirs]
              (pills :: fst (delete_reminder [pills; theirs] (user_id pills) (id pills))).
Proof.
  assert (Hkey : NoDup (map id [pills; theirs])).
  { cbn. repeat constructor; cbn; intuition discriminate. }
  assert (Hin : In pills [pills; theirs]) by (cbn; tauto).
  destruct (delete_reminder_removes_own_row [pills; theirs] pills Hkey Hin)
    as (Ha & Hp & _).
  split; [exact Ha | exact Hp].
Defined.

Lemma edit_reminder_only_own_rows_witness :
  exists r, In r [pills; theirs] /\ id r = 1 /\ user_id r = 42.
Proof.
  apply (edit_reminder_only_own_rows [pills; theirs] 42 "edit_1" 1). reflexivity.
Defined.

Lemma keyboard_acts_on_listed_rows_witness :
  List.length (create_reminders_keyboard (show_reminders [pills; theirs; overdue] 42 mar1_0900))
  = List.length (show_reminders [pills; theirs; overdue] 42 mar1_0900).
Proof.
  assert (Hkey : NoDup (map id [pills; theirs; overdue])).
  { cbn. repeat constructor; cbn; intuition discriminate. }
  symmetry.
  apply (Forall2_length
           (keyboard_acts_on_listed_rows [pills; theirs; overdue] 42 mar1_0900 Hkey)).
Defined.

Lemma show_today_reminders_same_date_witness :
  exists listed,
    show_today_reminders [pills; overdue; clip] 42 mar2_0700 mar2_0700 = Ok listed /\
    (In pills listed <->
     In pills [pills; overdue; clip] /\ user_id pills = 42 /\
     same_date (next_run pills) mar2_0700 /\
     Datetime.ltb mar2_0700 (next_run pills) = true).
Proof.
  assert (Hrows : forall r, In r [pills; overdue; clip] ->
                            Datetime.valid (next_run r) = true).
  { intros r [<-|[<-|[<-|[]]]]; reflexivity. }
  destruct (show_today_reminders_same_date [pills; overdue; clip] 42 mar2_0700 mar2_0700
              eq_refl eq_refl Hrows) as (listed & Hl & Hiff).
  exists listed. split; [exact Hl | apply Hiff].
Defined.

Lemma show_today_reminders_are_active_witness :
  In pills (show_reminders [pills; overdue; clip] 42 mar2_0700).
Proof.
  apply (show_today_reminders_are_active [pills; overdue; clip] [pills; clip] 42
           mar2_0700 mar2_0700 pills).
  - reflexivity.
  - cbn. tauto.
Defined.

Lemma attachment_is_sent_by_kind_witness :
  calls (send_reminder quiet_gateway city_not_found snapshot) =
  [send_photo 42 "AgACAgIAAxkBAAIBlarge" (cat ["⏰ Напоминание: "; "Look at this"])].
Proof.
  apply (attachment_is_sent_by_kind quiet_gateway city_not_found photo_message snapshot);
    reflexivity.
Defined.

Lemma save_and_schedule_stores_row_witness :
  exists row s',
    table s' = [pills; row] /\ id row = 2 /\ next_run row = mar2_1000 /\
    NoDup (map id (table s')).
Proof.
  assert (Hkey : NoDup (map id (table pills_armed))).
  { cbn. repeat constructor; cbn; intuition discriminate. }
  assert (Hfresh : ~ In 2 (map id (table pills_armed))).
  { cbn. intuition discriminate. }
  destruct (save_and_schedule_stores_row quiet_gateway sample_strftime pills_armed 2 42
              stretch_data None None mar2_1000 mar2_1000 eq_refl eq_refl Hkey Hfresh)
    as (row & s' & Ht & Hi & _ & _ & Hn & _ & _ & _ & Hk & _).
  exists row, s'. auto.
Defined.

Lemma created_reminder_stays_listed_witness :
  exists row,
    id row = 2 /\ next_run row = mar2_1000 /\
    In row (show_reminders [pills; stretch] 42 (at_time 2030 1 1 0 0)).
Proof.
  apply (created_reminder_stays_listed quiet_gateway (parse_as mar2_1000) sample_strftime
           pills_armed
           (mkSystem [pills; stretch] [Sleeping pills 82800000000; Ready stretch])
           2 42 "каждый день в 10:00" mar1_0900 mar1_0900
           (Some "Stretch") None None None None mar2_1000 mar2_1000 (Some "ежедневно")
           (send_message 42
              (cat ["✅ Напоминание 'Stretch' создано!"; PyStr.nl;
                    "Следующий запуск: 2.3.2024 10:0"; PyStr.nl; "Повтор: ежедневно"])));
    reflexivity.
Defined.

Lemma process_edit_time_frame_witness :
  map id [set_time pills mar2_1000; theirs] = map id [pills; theirs] /\
  In theirs [set_time pills mar2_1000; theirs].
Proof.
  destruct (process_edit_time_frame (parse_as mar2_1000) [pills; theirs]
              [set_time pills mar2_1000; theirs] [set_time pills mar2_1000]
              42 1 "2 марта в 10:00" mar1_0900 mar1_0900 eq_refl)
    as (Hid & _ & _ & _ & Hother & _).
  split; [exact Hid|]. apply Hother; [cbn; tauto | cbn; discriminate].
Defined.


Lemma recovered_task_sleeps_witness :
  exists r,
    Ready pills = Ready r /\
    In r (show_reminders [overdue; pills] (user_id r) mar1_0900) /\
    0 < Datetime.sub_us (next_run r) mar1_0900 /\
    step quiet_gateway city_not_found (boot [overdue; pills] mar1_0900) (Tick 0%nat mar1_0900) =
    (mkSystem [overdue; pills]
              (update (main [overdue; pills] mar1_0900) 0%nat
                      (Sleeping r (Datetime.sub_us (next_run r) mar1_0900))),
     [FromTask (id r) (Sleep (Datetime.sub_us (next_run r) mar1_0900))]).
Proof.
  apply (recovered_task_sleeps quiet_gateway city_not_found [overdue; pills] mar1_0900
           0%nat (Ready pills)).
  - reflexivity.
  - intros r [<-|[<-|[]]]; reflexivity.
  - reflexivity.
Defined.
